(** * gitlab_instance_variable: reconciliation of GitLab instance variables

    A shallow embedding of [plugins/modules/gitlab_instance_variable.py]:
    Python dictionaries are finite maps from attribute names to values, the
    python-gitlab manager [instance.variables] is an interface over an
    abstract remote state, and every method that talks to the remote runs in
    a small state-and-exception monad that also records the calls it makes. *)

From stdpp Require Import gmap strings list fin_maps.

Local Open Scope string_scope.
Local Open Scope list_scope.

(** ** Python values and dictionaries *)

(** The values that occur in a variable: [None], booleans and strings. *)
Inductive pyval : Type :=
  | PNone
  | PBool (b : bool)
  | PStr (s : string).

#[global] Instance pyval_eq_dec : EqDecision pyval.
Proof. solve_decision. Defined.

(** A Python [dict] with string keys. A key bound to [None] is a binding of
    its own ([PNone]), different from a missing key. *)
Abbreviation dict := (gmap string pyval).

(** [d.get(k)]: [None] when the key is missing. *)
Definition dict_get (d : dict) (k : string) : pyval := default PNone (d !! k).

(** [str(v)] *)
Definition py_str (v : pyval) : string :=
  match v with
  | PNone => "None"
  | PBool true => "True"
  | PBool false => "False"
  | PStr s => s
  end.

(** [x in l] and [x not in l] on a list of dictionaries compare with [==],
    equality of dictionaries: they are [x ∈ l] and [x ∉ l]. *)

(** ** Exceptions, calls and the monad *)

Inductive exn : Type :=
  | KeyError (k : string)
  | NameError (n : string)
  | GitlabError                 (* raised by a call of the client library *)
  | FailJson (msg : string).    (* [module.fail_json]: the run exits, failed *)

#[global] Instance exn_eq_dec : EqDecision exn.
Proof. solve_decision. Defined.

(** The calls made to the remote service. *)
Inductive event : Type :=
  | EvAuth
  | EvList (page : nat)
  | EvCreate (body : dict)
  | EvDelete (key scope : pyval).

#[global] Instance event_eq_dec : EqDecision event.
Proof. solve_decision. Defined.

Definition mutating (e : event) : bool :=
  match e with
  | EvCreate _ | EvDelete _ _ => true
  | _ => false
  end.

(** What a computation leaves behind: a value or the exception that ended
    it, the remote state, and the calls made, oldest first. *)
Record outcome (World A : Type) : Type := Out {
  result : exn + A;
  final : World;
  calls : list event
}.
Arguments Out {World A} _ _ _.
Arguments result {World A} _.
Arguments final {World A} _.
Arguments calls {World A} _.

#[global] Instance outcome_eq_dec {World A} `{EqDecision World, EqDecision A} :
  EqDecision (outcome World A).
Proof. solve_decision. Defined.

Definition M (World A : Type) : Type := World -> outcome World A.

Definition ret {World A} (a : A) : M World A := fun w => Out (inr a) w [].

Definition raise {World A} (e : exn) : M World A := fun w => Out (inl e) w [].

Definition bind {World A B} (m : M World A) (f : A -> M World B) : M World B :=
  fun w =>
    let o := m w in
    match result o with
    | inl e => Out (inl e) (final o) (calls o)
    | inr a => let o' := f a (final o) in
               Out (result o') (final o') (calls o ++ calls o')
    end.

(** [try: body except Exception: handler]. [fail_json] leaves through
    [SystemExit], which [except Exception] does not catch. *)
Definition try_except {World A} (body handler : M World A) : M World A :=
  fun w =>
    let o := body w in
    match result o with
    | inl (FailJson msg) => o
    | inl _ => let o' := handler (final o) in
               Out (result o') (final o') (calls o ++ calls o')
    | inr _ => o
    end.

Definition lift {World A} (r : exn + A) : M World A :=
  match r with
  | inl e => raise e
  | inr a => ret a
  end.

Notation "'do' x <- m ; k" := (bind m (fun x => k))
  (at level 10, x name, m at level 100, k at level 200).
Notation "'do' ' p <- m ; k" := (bind m (fun x => match x with p => k end))
  (at level 10, p pattern, m at level 100, k at level 200).
Notation "'run' m ; k" := (bind m (fun _ => k))
  (at level 10, m at level 100, k at level 200).

(** [d.pop(k)] on a dictionary held in a list that is updated in place: the
    dictionary without the key, and the value; [KeyError] when missing. *)
Definition dict_pop (d : dict) (k : string) : exn + (pyval * dict) :=
  match d !! k with
  | Some v => inr (v, delete k d)
  | None => inl (KeyError k)
  end.

(** A [for] loop that rewrites every item of a list in place and may raise. *)
Fixpoint for_each {A B} (f : A -> exn + B) (l : list A) : exn + list B :=
  match l with
  | [] => inr []
  | x :: l' =>
      match f x with
      | inl e => inl e
      | inr y => match for_each f l' with
                 | inl e => inl e
                 | inr l'' => inr (y :: l'')
                 end
      end
  end.

(** ** The client library *)

(** The dictionary [var] that [create_variable] builds from [var_obj]. *)
Definition create_body (var_obj : dict) : dict :=
  let var : dict :=
    <["key" := dict_get var_obj "key"]>
    (<["value" := dict_get var_obj "value"]>
    (<["masked" := dict_get var_obj "masked"]>
    (<["protected" := dict_get var_obj "protected"]>
    (<["variable_type" := dict_get var_obj "variable_type"]> ∅)))) in
  if decide (dict_get var_obj "environment_scope" = PNone) then var
  else <["environment_scope" := dict_get var_obj "environment_scope"]> var.

(** [instance.variables] of python-gitlab, over a remote state [World].
    [variables_pages w] are the pages the service holds, page 1 first; a
    page past the last one is empty. [variables_create] and
    [variables_delete] give the new remote state, or [None] when the call
    raises (the remote state is then the old one). A listing is taken to
    answer: a listing that raises is outside the model, and so is what the
    module does after it. *)
Class GitlabInstance (World : Type) : Type := {
  variables_pages : World -> list (list dict);
  variables_create : dict -> World -> option World;
  variables_delete : pyval -> pyval -> World -> option World
}.

(** The module object: check mode and the parameters. *)
Record AnsibleModule : Type := {
  check_mode : bool;
  params_purge : bool;
  params_vars : dict;
  params_variables : list dict;
  params_state : string
}.

(** [return_value]: the dictionary of the four lists. *)
Record return_dict : Type := ReturnValue {
  rv_added : list dict;
  rv_updated : list dict;
  rv_removed : list dict;
  rv_untouched : list dict
}.

#[global] Instance return_dict_eq_dec : EqDecision return_dict.
Proof. solve_decision. Defined.

(** [group_variable] of the result: four lists of names. *)
Record group_variable : Type := GroupVariable {
  gv_added : list pyval;
  gv_updated : list pyval;
  gv_removed : list pyval;
  gv_untouched : list pyval
}.

#[global] Instance group_variable_eq_dec : EqDecision group_variable.
Proof. solve_decision. Defined.

Section GitlabInstanceVariables.

Context {World : Type} {gl : GitlabInstance World}.

(** [self.instance.variables.create(var)] *)
Definition variables_create_call (var : dict) : M World unit :=
  fun w =>
    match variables_create var w with
    | Some w' => Out (inr tt) w' [EvCreate var]
    | None => Out (inl GitlabError) w [EvCreate var]
    end.

(** [self.instance.variables.delete(key, filter={'environment_scope': scope})] *)
Definition variables_delete_call (key scope : pyval) : M World unit :=
  fun w =>
    match variables_delete key scope w with
    | Some w' => Out (inr tt) w' [EvDelete key scope]
    | None => Out (inl GitlabError) w [EvDelete key scope]
    end.

(** The [while len(vars_page) > 0] loop of [list_all_instance_variables];
    [later] are the pages the service holds after page [page_nb], so that
    its head, or the empty page when there is none, is what
    [self.instance.variables.list(page=page_nb)] answers once [page_nb]
    has been incremented. *)
Fixpoint list_loop (later : list (list dict)) (page_nb : nat)
    (variables vars_page : list dict) : list dict * list event :=
  if (0 <? length vars_page)%nat then
    let variables := variables ++ vars_page in
    let page_nb := page_nb + 1 in
    match later with
    | [] => (variables, [EvList page_nb])
    | vars_page :: later =>
        let '(r, t) := list_loop later page_nb variables vars_page in
        (r, EvList page_nb :: t)
    end
  else (variables, []).

Definition list_all_instance_variables : M World (list dict) :=
  fun w =>
    let page_nb := 1 in
    let variables := [] in
    let vars_page := nth (page_nb - 1) (variables_pages w) [] in
    let '(r, t) := list_loop (tail (variables_pages w)) page_nb variables vars_page in
    Out (inr r) w (EvList page_nb :: t).

(** [create_variable] *)
Definition create_variable (module : AnsibleModule) (var_obj : dict) : M World bool :=
  if check_mode module then ret true
  else
    let var := create_body var_obj in
    run variables_create_call var;
    ret true.

(** [delete_variable] *)
Definition delete_variable (module : AnsibleModule) (var_obj : dict) : M World bool :=
  if check_mode module then ret true
  else
    run variables_delete_call (dict_get var_obj "key")
                              (dict_get var_obj "environment_scope");
    ret true.

(** [update_variable] *)
Definition update_variable (module : AnsibleModule) (var_obj : dict) : M World bool :=
  if check_mode module then ret true
  else
    run delete_variable module var_obj;
    run create_variable module var_obj;
    ret true.

End GitlabInstanceVariables.

(** ** [compare] *)

(** The dictionary [{'key': k, 'environment_scope': s}]. *)
Definition key_scope (k s : pyval) : dict :=
  <["key" := k]> (<["environment_scope" := s]> ∅).

(** The body of [for var in requested_variables], on the three lists. *)
Definition compare_step (existing_variables existing_key_scope_vars : list dict)
    (acc : list dict * list dict * list dict) (var : dict)
    : list dict * list dict * list dict :=
  let '(untouched, updated, added) := acc in
  if decide (var ∈ existing_variables) then (untouched ++ [var], updated, added)
  else
    let compare_item := key_scope (dict_get var "name") (dict_get var "environment_scope") in
    if decide (compare_item ∈ existing_key_scope_vars) then (untouched, updated ++ [var], added)
    else (untouched, updated, added ++ [var]).

Definition compare (requested_variables existing_variables : list dict) (state : string)
    : list dict * list dict * list dict :=
  let untouched := [] in
  let updated := [] in
  let added := [] in
  if decide (state = "present") then
    let existing_key_scope_vars :=
      map (fun item => key_scope (dict_get item "key") (dict_get item "environment_scope"))
          existing_variables in
    fold_left (compare_step existing_variables existing_key_scope_vars)
              requested_variables (untouched, updated, added)
  else (untouched, updated, added).

(** ** [native_python_main] *)

(** [if item.get(k) is None: item[k] = v] *)
Definition set_default (item : dict) (k : string) (v : pyval) : dict :=
  if decide (dict_get item k = PNone) then <[k := v]> item else item.

(** The body of the first [for item in requested_variables]. *)
Definition normalize_item (item : dict) : exn + dict :=
  match dict_pop item "name" with
  | inl e => inl e
  | inr (name, item) =>
      let item := <["key" := name]> item in
      let item := <["value" := PStr (py_str (dict_get item "value"))]> item in
      let item := set_default item "protected" (PBool false) in
      let item := set_default item "masked" (PBool false) in
      let item := set_default item "environment_scope" (PStr "*") in
      let item := set_default item "variable_type" (PStr "env_var") in
      inr item
  end.

(** [item.pop('value'); item.pop('variable_type')] *)
Definition strip_item (item : dict) : exn + dict :=
  match dict_pop item "value" with
  | inl e => inl e
  | inr (_, item) =>
      match dict_pop item "variable_type" with
      | inl e => inl e
      | inr (_, item) => inr item
      end
  end.

(** [return_value['added'].append(item)] and its two siblings. *)
Definition append_added (item : dict) (rv : return_dict) : return_dict :=
  ReturnValue (rv_added rv ++ [item]) (rv_updated rv) (rv_removed rv) (rv_untouched rv).
Definition append_updated (item : dict) (rv : return_dict) : return_dict :=
  ReturnValue (rv_added rv) (rv_updated rv ++ [item]) (rv_removed rv) (rv_untouched rv).
Definition append_removed (item : dict) (rv : return_dict) : return_dict :=
  ReturnValue (rv_added rv) (rv_updated rv) (rv_removed rv ++ [item]) (rv_untouched rv).

(** [any(x['value'] is None for x in variables)] *)
Fixpoint any_value_is_None (variables : list dict) : exn + bool :=
  match variables with
  | [] => inr false
  | x :: rest =>
      match x !! "value" with
      | None => inl (KeyError "value")
      | Some v => if decide (v = PNone) then inr true else any_value_is_None rest
      end
  end.

Section NativePythonMain.

Context {World : Type} {gl : GitlabInstance World}.

(** [filter_returned_variables] of [module_utils/gitlab.py] is imported,
    not defined, by the module: it is a parameter here. *)
Variable filter_returned_variables : list dict -> list dict.

(** [for item in add_or_update: try: ... except Exception: ...] *)
Fixpoint apply_loop (module : AnsibleModule) (add_or_update : list dict)
    (return_value : return_dict) : M World return_dict :=
  match add_or_update with
  | [] => ret return_value
  | item :: rest =>
      do return_value <-
        try_except
          (do ok <- create_variable module item;
           ret (if ok : bool then append_added item return_value else return_value))
          (do ok <- update_variable module item;
           ret (if ok : bool then append_updated item return_value else return_value));
      apply_loop module rest return_value
  end.

(** [for item in ...: if this_gitlab.delete_variable(item): ...removed...] *)
Fixpoint delete_loop (module : AnsibleModule) (remove : list dict)
    (return_value : return_dict) : M World return_dict :=
  match remove with
  | [] => ret return_value
  | item :: rest =>
      do ok <- delete_variable module item;
      let return_value := if ok : bool then append_removed item return_value
                          else return_value in
      delete_loop module rest return_value
  end.

(** The block under [if state == 'present']. *)
Definition present_block (module : AnsibleModule) (purge : bool)
    (requested_variables existing_variables : list dict)
    (return_value : return_dict) : M World return_dict :=
  let add_or_update :=
    filter (fun x => x ∉ existing_variables) requested_variables in
  do return_value <- apply_loop module add_or_update return_value;
  if purge then
    (* refetch and filter *)
    do gitlab_keys <- list_all_instance_variables;
    let existing_variables := filter_returned_variables gitlab_keys in
    let remove := filter (fun x => x ∉ requested_variables) existing_variables in
    delete_loop module remove return_value
  else ret return_value.

(** The block under [elif state == 'absent']. *)
Definition absent_block (module : AnsibleModule) (purge : bool)
    (requested_variables existing_variables : list dict)
    (return_value : return_dict) : M World return_dict :=
  do existing_variables <- lift (for_each strip_item existing_variables);
  do requested_variables <- lift (for_each strip_item requested_variables);
  if negb purge then
    let remove_requested :=
      filter (fun x => x ∈ existing_variables) requested_variables in
    delete_loop module remove_requested return_value
  else delete_loop module existing_variables return_value.

Definition state_block (module : AnsibleModule) (purge : bool) (state : string)
    (requested_variables existing_variables : list dict)
    (return_value : return_dict) : M World return_dict :=
  if decide (state = "present") then
    present_block module purge requested_variables existing_variables return_value
  else if decide (state = "absent") then
    absent_block module purge requested_variables existing_variables return_value
  else ret return_value.

Definition native_python_main (module : AnsibleModule) (purge : bool)
    (requested_variables : list dict) (state : string)
    : M World (bool * return_dict * list dict * list dict) :=
  let change := false in
  let return_value := ReturnValue [] [] [] [] in
  do gitlab_keys <- list_all_instance_variables;
  let before := gitlab_keys in
  do gitlab_keys <- list_all_instance_variables;
  let existing_variables := filter_returned_variables gitlab_keys in
  do requested_variables <- lift (for_each normalize_item requested_variables);
  (* [untouched, updated, added] are bound in check mode only, and only
     read in check mode *)
  let '(untouched, updated, added) :=
    if check_mode module then compare requested_variables existing_variables state
    else ([], [], []) in
  do return_value <-
    state_block module purge state requested_variables existing_variables return_value;
  let return_value :=
    if check_mode module
    then ReturnValue added updated (rv_removed return_value) untouched
    else return_value in
  let change :=
    if (0 <? length (rv_added return_value ++ rv_removed return_value
                       ++ rv_updated return_value))%nat
    then true else change in
  do gitlab_keys <- list_all_instance_variables;
  let after := gitlab_keys in
  ret (change, return_value, before, after).

(** ** [main] *)

(** [gitlab_authentication(module)], taken to succeed: a failed
    authentication is outside the model. *)
Definition gitlab_authentication : M World unit :=
  fun w => Out (inr tt) w [EvAuth].

(** [main]; the value returned is what [module.exit_json] is given.
    [vars_to_variables] is neither defined nor imported by the module:
    reaching it raises [NameError]. *)
Definition main (module : AnsibleModule) : M World (bool * group_variable) :=
  let purge := params_purge module in
  let var_list := params_vars module in
  let state := params_state module in
  do variables <-
    (if decide (var_list = ∅) then ret (params_variables module)
     else raise (NameError "vars_to_variables"));
  run (if decide (state = "present") then
         do missing <- lift (any_value_is_None variables);
         if missing : bool
         then raise (FailJson "value parameter is required in state present")
         else ret tt
       else ret tt);
  run gitlab_authentication;
  do ' (changed, raw_return_value, before, after) <-
    native_python_main module purge variables state;
  let untouched_key_name := if check_mode module then "key" else "name" in
  let raw_untouched :=
    if check_mode module then rv_untouched raw_return_value
    else filter (fun x => x ∈ after) before in
  let added := map (fun x => dict_get x "key") (rv_added raw_return_value) in
  let updated := map (fun x => dict_get x "key") (rv_updated raw_return_value) in
  let removed := map (fun x => dict_get x "key") (rv_removed raw_return_value) in
  let untouched := map (fun x => dict_get x untouched_key_name) raw_untouched in
  let return_value := GroupVariable added updated removed untouched in
  ret (changed, return_value).

End NativePythonMain.

(** ** A reference remote service *)

Module RefStore.

(** Modelled from the spec: the remote service ("an external
    transactional store accessed only through list/create/delete
    primitives") is not part of the module. It holds the variables in the
    order of their creation; a key is unique within an environment
    scope, so a create of a (key, scope) pair already held fails, and a
    delete of a pair not held fails. *)
Abbreviation store := (list dict).

Definition same_variable (key scope : pyval) (e : dict) : Prop :=
  dict_get e "key" = key ∧ dict_get e "environment_scope" = scope.

#[global] Instance same_variable_dec key scope e : Decision (same_variable key scope e).
Proof. unfold same_variable. apply _. Defined.

Definition holds (key scope : pyval) (w : store) : Prop :=
  Exists (same_variable key scope) w.

Definition store_create (var : dict) (w : store) : option store :=
  if decide (holds (dict_get var "key") (dict_get var "environment_scope") w)
  then None
  else Some (w ++ [var]).

Definition store_delete (key scope : pyval) (w : store) : option store :=
  if decide (holds key scope w)
  then Some (filter (fun e => ¬ same_variable key scope e) w)
  else None.

(** Modelled from the spec: the listing is paginated; the service cuts
    the variables it holds into pages of [per_page] variables. *)
Definition per_page : nat := 20.

Fixpoint chunks (fuel n : nat) (l : list dict) : list (list dict) :=
  match fuel with
  | 0 => []
  | S fuel =>
      match l with
      | [] => []
      | _ => take n l :: chunks fuel n (drop n l)
      end
  end.

Definition pages (w : store) : list (list dict) := chunks (length w) per_page w.

#[global] Instance gitlab : GitlabInstance store := {|
  variables_pages := pages;
  variables_create := store_create;
  variables_delete := store_delete
|}.

(** Modelled from the spec: [filter_returned_variables] is not in the
    source; it keeps of every remote variable the six attributes of the
    spec's data model. *)
Definition known : list string :=
  ["key"; "value"; "masked"; "protected"; "variable_type"; "environment_scope"].

Definition filter_returned_variables (gitlab_variables : list dict) : list dict :=
  map (fun attributes : dict => filter (fun kv => kv.1 ∈ known) attributes) gitlab_variables.

(** The (key, scope) pair that identifies a variable. *)
Definition pair_of (e : dict) : pyval * pyval :=
  (dict_get e "key", dict_get e "environment_scope").

(** The service holds at most one variable per (key, scope) pair. *)
Definition store_ok (w : store) : Prop := NoDup (map pair_of w).

(** Two requested variables with the same (key, scope) pair are the same
    in every attribute. *)
Definition same_pair_same_variable (req : list dict) : Prop :=
  Forall (fun d => Forall (fun d' => pair_of d = pair_of d' -> d = d') req) req.

#[global] Instance same_pair_same_variable_dec req :
  Decision (same_pair_same_variable req).
Proof. unfold same_pair_same_variable. apply _. Defined.

(** What the apply phase does to the service for one candidate: the
    variable of its pair, if any, goes, and the candidate comes last. *)
Definition put (c : dict) (w : store) : store :=
  filter (fun e => pair_of e <> pair_of c) w ++ [c].

Definition puts (cs : list dict) (w : store) : store :=
  fold_left (fun w c => put c w) cs w.

#[global] Instance store_ok_dec w : Decision (store_ok w).
Proof. unfold store_ok. apply _. Defined.

(** The names of the suboptions of [variables] in the argument spec of
    [main]: an element of the list has no other key, and [name] is
    required. *)
Definition option_names : list string :=
  ["name"; "value"; "masked"; "protected"; "environment_scope"; "variable_type"].

Definition wf_requested (item : dict) : Prop :=
  is_Some (item !! "name") ∧ map_Forall (fun k _ => k ∈ option_names) item.

#[global] Instance wf_requested_dec item : Decision (wf_requested item).
Proof. unfold wf_requested. apply _. Defined.

(** A requested variable after the first loop of [native_python_main]:
    the six attributes and no other, with a scope. *)
Definition normal (d : dict) : Prop :=
  (forall k, is_Some (d !! k) <-> k ∈ known)
  ∧ dict_get d "environment_scope" <> PNone.

End RefStore.


(** ** What the claims speak of *)

(** The pages fetched before the first empty one. *)
Fixpoint leading_pages (pages : list (list dict)) : list (list dict) :=
  match pages with
  | [] => []
  | p :: pages' => if (0 <? length p)%nat then p :: leading_pages pages' else []
  end.

Section Remote.

Context {World : Type} {gl : GitlabInstance World}.

(** The variables a complete listing gives, and the calls it makes. *)
Definition remote_variables (w : World) : list dict :=
  concat (leading_pages (variables_pages w)).

Definition list_calls (w : World) : list event :=
  map EvList (seq 1 (S (length (leading_pages (variables_pages w))))).

(** The apply phase as the specification words it, on the candidates in
    turn: a create that succeeds classifies the variable as added; a
    create that fails is followed by a delete and a second create, and
    the variable is classified as updated. *)
Inductive apply_run : list dict -> World -> list event -> list dict -> list dict
    -> World -> Prop :=
  | apply_done w : apply_run [] w [] [] [] w
  | apply_added x xs w w1 w2 t a u :
      variables_create (create_body x) w = Some w1 ->
      apply_run xs w1 t a u w2 ->
      apply_run (x :: xs) w (EvCreate (create_body x) :: t) (x :: a) u w2
  | apply_updated x xs w w1 w2 w3 t a u :
      variables_create (create_body x) w = None ->
      variables_delete (dict_get x "key") (dict_get x "environment_scope") w = Some w1 ->
      variables_create (create_body x) w1 = Some w2 ->
      apply_run xs w2 t a u w3 ->
      apply_run (x :: xs) w
        (EvCreate (create_body x)
           :: EvDelete (dict_get x "key") (dict_get x "environment_scope")
           :: EvCreate (create_body x) :: t)
        a (x :: u) w3.

End Remote.

(** The return value and the change flag that [native_python_main] computes
    after the state block. *)
Definition finish (module : AnsibleModule) (state : string)
    (req existing : list dict) (rv0 : return_dict) : bool * return_dict :=
  let '(untouched, updated, added) :=
    if check_mode module then compare req existing state else ([], [], []) in
  let rv := if check_mode module
            then ReturnValue added updated (rv_removed rv0) untouched else rv0 in
  ((0 <? length (rv_added rv ++ rv_removed rv ++ rv_updated rv))%nat, rv).

(** The [group_variable] that [main] builds from what [native_python_main]
    returns. *)
Definition payload (module : AnsibleModule) (raw : return_dict)
    (before after : list dict) : group_variable :=
  GroupVariable
    (map (fun x => dict_get x "key") (rv_added raw))
    (map (fun x => dict_get x "key") (rv_updated raw))
    (map (fun x => dict_get x "key") (rv_removed raw))
    (map (fun x => dict_get x (if check_mode module then "key" else "name"))
         (if check_mode module then rv_untouched raw
          else filter (fun x => x ∈ after) before)).

(** The test of [main] on the values, when the state is [present]. *)
Definition validation (state : string) (variables : list dict) : exn + bool :=
  if decide (state = "present") then any_value_is_None variables else inr false.

(** ** Concrete variables *)

(** An element of [variables] as the argument spec of [main] hands it
    over, the defaults of the suboptions filled in. *)
Definition requested_variable (name value : string) : dict :=
  <["name" := PStr name]>
  (<["value" := PStr value]>
  (<["masked" := PBool false]>
  (<["protected" := PBool false]>
  (<["environment_scope" := PStr "*"]>
  (<["variable_type" := PStr "env_var"]> ∅))))).

(** The attributes of a variable that the service holds. *)
Definition remote_variable (key value : string) (masked : bool) : dict :=
  <["key" := PStr key]>
  (<["value" := PStr value]>
  (<["masked" := PBool masked]>
  (<["protected" := PBool false]>
  (<["environment_scope" := PStr "*"]>
  (<["variable_type" := PStr "env_var"]> ∅))))).

(** An element of [variables] given without a value. *)
Definition requested_variable_no_value (name : string) : dict :=
  <["value" := PNone]> (requested_variable name "").

Definition module_of (check purge : bool) (variables : list dict) (state : string)
    : AnsibleModule :=
  {| check_mode := check; params_purge := purge; params_vars := ∅;
     params_variables := variables; params_state := state |}.

(** A second run of the state present, from the remote state that a first
    run that succeeded has left: the same remote state, no change, and
    nothing added, updated or removed. *)
Definition rerun_unchanged (module : AnsibleModule) (purge : bool)
    (requested : list dict) (w : RefStore.store) : Prop :=
  let first :=
    native_python_main RefStore.filter_returned_variables module purge requested
      "present" w in
  let second :=
    native_python_main RefStore.filter_returned_variables module purge requested
      "present" (final first) in
  forall r1,
    result first = inr r1 ->
    exists untouched before after,
      result second = inr (false, ReturnValue [] [] [] untouched, before, after)
      /\ final second = final first.

(** No call that creates or deletes. *)
Definition quiet (c : list event) : Prop := Forall (fun e => mutating e = false) c.

(** The change flag of what [native_python_main] returns. *)
Definition change_of (r : exn + bool * return_dict * list dict * list dict)
    : option bool :=
  match r with
  | inr (change, _, _, _) => Some change
  | inl _ => None
  end.

(** ** What the further properties speak of *)

(** A remote variable has the name and the scope that [compare] reads from
    a requested variable: its ['key'] is the requested ['name']. *)
Definition name_scope_match (var : dict) (existing_variables : list dict) : Prop :=
  Exists (fun item : dict =>
            dict_get item "key" = dict_get var "name"
            /\ dict_get item "environment_scope" = dict_get var "environment_scope")
         existing_variables.

#[global] Instance name_scope_match_dec var existing_variables :
  Decision (name_scope_match var existing_variables).
Proof. unfold name_scope_match. apply _. Defined.

Definition is_delete (e : event) : bool :=
  match e with EvDelete _ _ => true | _ => false end.

Definition is_create (e : event) : bool :=
  match e with EvCreate _ => true | _ => false end.

(** The number of calls of one kind. *)
Definition count (kind : event -> bool) (c : list event) : nat :=
  length (List.filter kind c).

(** A service that checks what it is asked to create. *)
Module StrictStore.

(** Modelled from the documentation of the module ("When a value is
    masked, it must be in Base64 and have a length of at least 8
    characters"): the reference service, with a create that also fails for
    a masked variable whose value has less than 8 characters. *)
Definition acceptable (var : dict) : Prop :=
  dict_get var "masked" = PBool true ->
  8 <= String.length (py_str (dict_get var "value")).

#[global] Instance acceptable_dec var : Decision (acceptable var).
Proof. unfold acceptable. apply _. Defined.

Definition strict_create (var : dict) (w : RefStore.store) : option RefStore.store :=
  if decide (acceptable var) then RefStore.store_create var w else None.

Definition gitlab : GitlabInstance RefStore.store := {|
  variables_pages := RefStore.pages;
  variables_create := strict_create;
  variables_delete := RefStore.store_delete
|}.

End StrictStore.

(** ** The monad *)

Section MonadFacts.

Context {World : Type}.

Lemma bind_ok {A B} (m : M World A) (f : A -> M World B) w a w1 c1 :
  m w = Out (inr a) w1 c1 ->
  bind m f w = Out (result (f a w1)) (final (f a w1)) (c1 ++ calls (f a w1)).
Proof. intros H. unfold bind. rewrite H. reflexivity. Qed.

Lemma bind_raise {A B} (m : M World A) (f : A -> M World B) w e w1 c1 :
  m w = Out (inl e) w1 c1 -> bind m f w = Out (inl e) w1 c1.
Proof. intros H. unfold bind. rewrite H. reflexivity. Qed.

Lemma bind_inr {A B} (m : M World A) (f : A -> M World B) w b :
  result (bind m f w) = inr b ->
  exists a, result (m w) = inr a /\ result (f a (final (m w))) = inr b.
Proof.
  unfold bind. destruct (m w) as [[e | a] w1 c1]; simpl; [discriminate |].
  intros H. exists a. split; [reflexivity | exact H].
Qed.

Lemma bind_calls {A B} (m : M World A) (f : A -> M World B) w a :
  result (m w) = inr a ->
  calls (bind m f w) = calls (m w) ++ calls (f a (final (m w))).
Proof.
  unfold bind. destruct (m w) as [[e | a'] w1 c1]; simpl; [discriminate |].
  intros [= ->]. reflexivity.
Qed.

Lemma outcome_eta {A} (o : outcome World A) :
  o = Out (result o) (final o) (calls o).
Proof. destruct o; reflexivity. Qed.

Lemma bind_ret_l {A B} (a : A) (f : A -> M World B) w :
  bind (ret a) f w = f a w.
Proof. unfold bind, ret. simpl. symmetry. apply outcome_eta. Qed.

Lemma bind_raise_l {A B} e (f : A -> M World B) w :
  bind (raise e) f w = Out (inl e) w [].
Proof. reflexivity. Qed.

End MonadFacts.

(** Run the first computation of a [bind] whose outcome [H] gives. *)
Ltac mstep H :=
  first [ rewrite (bind_ok _ _ _ _ _ _ H) | rewrite (bind_raise _ _ _ _ _ _ H) ];
  cbn [result final calls].

(** ** The listing *)

Section Listing.

Context {World : Type} {gl : GitlabInstance World}.

Lemma list_loop_spec (later : list (list dict)) page_nb variables vars_page :
  list_loop later page_nb variables vars_page
  = (variables ++ concat (leading_pages (vars_page :: later)),
     map EvList (seq (S page_nb) (length (leading_pages (vars_page :: later))))).
Proof.
  revert page_nb variables vars_page.
  induction later as [| p later IH]; intros page_nb variables vars_page.
  - simpl. destruct (0 <? length vars_page)%nat; simpl.
    + rewrite app_nil_r. replace (page_nb + 1) with (S page_nb) by lia. reflexivity.
    + rewrite app_nil_r. reflexivity.
  - cbn [list_loop]. cbn [leading_pages]. destruct (0 <? length vars_page)%nat eqn:E.
    + rewrite IH. cbn [concat length seq map]. rewrite <- app_assoc.
      replace (page_nb + 1) with (S page_nb) by lia. reflexivity.
    + simpl. rewrite app_nil_r. reflexivity.
Qed.

Lemma list_all_spec (w : World) :
  list_all_instance_variables w = Out (inr (remote_variables w)) w (list_calls w).
Proof.
  unfold list_all_instance_variables, remote_variables, list_calls.
  destruct (variables_pages w) as [| p ps]; simpl nth; simpl tail.
  - reflexivity.
  - rewrite list_loop_spec. reflexivity.
Qed.

Lemma leading_pages_prefix (pages : list (list dict)) :
  leading_pages pages = take (length (leading_pages pages)) pages
  /\ Forall (fun p => p <> []) (leading_pages pages)
  /\ nth (length (leading_pages pages)) pages [] = [].
Proof.
  induction pages as [| p pages (IH1 & IH2 & IH3)]; simpl.
  - repeat split; constructor.
  - destruct p as [| x p]; simpl.
    + repeat split; constructor.
    + repeat split.
      * f_equal. exact IH1.
      * constructor; [discriminate | exact IH2].
      * exact IH3.
Qed.

End Listing.

(** ** [native_python_main], phase by phase *)

Section NativeFacts.

Context {World : Type} {gl : GitlabInstance World}.
Variable frv : list dict -> list dict.

Lemma native_eq module purge requested state (w : World) :
  native_python_main frv module purge requested state w =
  match for_each normalize_item requested with
  | inl e => Out (inl e) w (list_calls w ++ list_calls w)
  | inr req =>
      let existing := frv (remote_variables w) in
      let o := state_block frv module purge state req existing
                 (ReturnValue [] [] [] []) w in
      match result o with
      | inl e => Out (inl e) (final o) (list_calls w ++ list_calls w ++ calls o)
      | inr rv0 =>
          Out (inr (finish module state req existing rv0,
                    remote_variables w, remote_variables (final o)))
              (final o)
              (list_calls w ++ list_calls w ++ calls o ++ list_calls (final o))
      end
  end.
Proof.
  unfold native_python_main.
  rewrite (bind_ok _ _ _ _ _ _ (list_all_spec w)).
  rewrite (bind_ok _ _ _ _ _ _ (list_all_spec w)).
  destruct (for_each normalize_item requested) as [e | req]; simpl lift.
  - rewrite bind_raise_l. cbn [result final calls]. rewrite app_nil_r. reflexivity.
  - rewrite bind_ret_l. unfold finish.
    destruct (if check_mode module then compare req (frv (remote_variables w)) state
              else ([], [], [])) as [[untouched updated] added].
    destruct (state_block frv module purge state req (frv (remote_variables w))
                (ReturnValue [] [] [] []) w) as [[e | rv0] w1 c1] eqn:E;
      cbn [result final calls].
    + rewrite (bind_raise _ _ _ _ _ _ E). reflexivity.
    + rewrite (bind_ok _ _ _ _ _ _ E).
      rewrite (bind_ok _ _ _ _ _ _ (list_all_spec w1)). unfold ret.
      cbn [result final calls]. rewrite app_nil_r.
      destruct (0 <? _)%nat; reflexivity.
Qed.

Lemma finish_real module state req existing rv0 :
  check_mode module = false ->
  finish module state req existing rv0
  = ((0 <? length (rv_added rv0 ++ rv_removed rv0 ++ rv_updated rv0))%nat, rv0).
Proof. intros H. unfold finish. rewrite H. reflexivity. Qed.

Lemma main_eq module (w : World) :
  main frv module w =
  if decide (params_vars module = ∅) then
    match validation (params_state module) (params_variables module) with
    | inl e => Out (inl e) w []
    | inr true =>
        Out (inl (FailJson "value parameter is required in state present")) w []
    | inr false =>
        let o := native_python_main frv module (params_purge module)
                   (params_variables module) (params_state module) w in
        match result o with
        | inl e => Out (inl e) (final o) (EvAuth :: calls o)
        | inr (changed, raw, before, after) =>
            Out (inr (changed, payload module raw before after)) (final o)
                (EvAuth :: calls o)
        end
    end
  else Out (inl (NameError "vars_to_variables")) w [].
Proof.
  unfold main, validation.
  destruct (decide (params_vars module = ∅)) as [Hv | Hv]; [| reflexivity].
  rewrite bind_ret_l.
  assert (Hrest : forall (m : M World unit),
    m w = Out (inr tt) w [] ->
    bind m (fun _ =>
      run gitlab_authentication;
      do ' (changed, raw_return_value, before, after) <-
        native_python_main frv module (params_purge module)
          (params_variables module) (params_state module);
      ret (changed, payload module raw_return_value before after)) w
    = (let o := native_python_main frv module (params_purge module)
                  (params_variables module) (params_state module) w in
       match result o with
       | inl e => Out (inl e) (final o) (EvAuth :: calls o)
       | inr (changed, raw, before, after) =>
           Out (inr (changed, payload module raw before after)) (final o)
               (EvAuth :: calls o)
       end)).
  { intros m Hm. rewrite (bind_ok _ _ _ _ _ _ Hm).
    assert (Ha : gitlab_authentication w = Out (inr tt) w [EvAuth]) by reflexivity.
    rewrite (bind_ok _ _ _ _ _ _ Ha). cbn [result final calls app].
    destruct (native_python_main frv module (params_purge module)
                (params_variables module) (params_state module) w)
      as [[e | [[[changed raw] before] after]] w1 c1] eqn:E; cbn [result final calls].
    - rewrite (bind_raise _ _ _ _ _ _ E). reflexivity.
    - rewrite (bind_ok _ _ _ _ _ _ E). unfold ret. cbn [result final calls].
      rewrite app_nil_r. reflexivity. }
  destruct (decide (params_state module = "present")) as [Hs | Hs].
  - destruct (any_value_is_None (params_variables module)) as [e | [|]] eqn:E.
    + apply bind_raise. reflexivity.
    + apply bind_raise. reflexivity.
    + apply Hrest. reflexivity.
  - apply Hrest. reflexivity.
Qed.

End NativeFacts.

(** ** The three methods in a real run, and the two loops *)

Section MethodFacts.

Context {World : Type} {gl : GitlabInstance World}.
Variable module : AnsibleModule.
Hypothesis real_run : check_mode module = false.

Lemma create_variable_real x (w : World) :
  create_variable module x w =
  match variables_create (create_body x) w with
  | Some w1 => Out (inr true) w1 [EvCreate (create_body x)]
  | None => Out (inl GitlabError) w [EvCreate (create_body x)]
  end.
Proof.
  unfold create_variable. rewrite real_run.
  unfold bind, variables_create_call.
  destruct (variables_create (create_body x) w); reflexivity.
Qed.

Lemma delete_variable_real x (w : World) :
  delete_variable module x w =
  let key := dict_get x "key" in
  let scope := dict_get x "environment_scope" in
  match variables_delete key scope w with
  | Some w1 => Out (inr true) w1 [EvDelete key scope]
  | None => Out (inl GitlabError) w [EvDelete key scope]
  end.
Proof.
  unfold delete_variable. rewrite real_run.
  unfold bind, variables_delete_call.
  destruct (variables_delete _ _ w); reflexivity.
Qed.

Lemma update_variable_real x (w : World) :
  update_variable module x w =
  let key := dict_get x "key" in
  let scope := dict_get x "environment_scope" in
  match variables_delete key scope w with
  | None => Out (inl GitlabError) w [EvDelete key scope]
  | Some w1 =>
      match variables_create (create_body x) w1 with
      | None => Out (inl GitlabError) w1 [EvDelete key scope; EvCreate (create_body x)]
      | Some w2 => Out (inr true) w2 [EvDelete key scope; EvCreate (create_body x)]
      end
  end.
Proof.
  unfold update_variable. rewrite real_run. cbn zeta.
  pose proof (delete_variable_real x w) as Hd. cbn zeta in Hd.
  destruct (variables_delete _ _ w) as [w1 |]; mstep Hd; [| reflexivity].
  pose proof (create_variable_real x w1) as Hc.
  destruct (variables_create (create_body x) w1) as [w2 |]; mstep Hc; reflexivity.
Qed.

(** One turn of the apply loop. *)
Lemma apply_loop_cons x xs rv (w : World) :
  apply_loop module (x :: xs) rv w =
  let key := dict_get x "key" in
  let scope := dict_get x "environment_scope" in
  let body := create_body x in
  match variables_create body w with
  | Some w1 =>
      let o := apply_loop module xs (append_added x rv) w1 in
      Out (result o) (final o) (EvCreate body :: calls o)
  | None =>
      match variables_delete key scope w with
      | None => Out (inl GitlabError) w [EvCreate body; EvDelete key scope]
      | Some w1 =>
          match variables_create body w1 with
          | None => Out (inl GitlabError) w1
                      [EvCreate body; EvDelete key scope; EvCreate body]
          | Some w2 =>
              let o := apply_loop module xs (append_updated x rv) w2 in
              Out (result o) (final o)
                  (EvCreate body :: EvDelete key scope :: EvCreate body :: calls o)
          end
      end
  end.
Proof.
  cbn [apply_loop]. cbn zeta.
  pose proof (create_variable_real x w) as Hc.
  pose proof (update_variable_real x w) as Hu. cbn zeta in Hu.
  destruct (variables_create (create_body x) w) as [w1 |].
  - assert (Ht : try_except
              (do ok <- create_variable module x;
               ret (if ok : bool then append_added x rv else rv))
              (do ok <- update_variable module x;
               ret (if ok : bool then append_updated x rv else rv)) w
            = Out (inr (append_added x rv)) w1 [EvCreate (create_body x)]).
    { unfold try_except. mstep Hc. reflexivity. }
    mstep Ht. reflexivity.
  - assert (Hb : (do ok <- create_variable module x;
                  ret (if ok : bool then append_added x rv else rv)) w
                 = Out (inl GitlabError) w [EvCreate (create_body x)]).
    { mstep Hc. reflexivity. }
    unfold bind at 1. unfold try_except. rewrite Hb. cbn [result final calls].
    destruct (variables_delete _ _ w) as [w1 |].
    + destruct (variables_create (create_body x) w1) as [w2 |]; mstep Hu; reflexivity.
    + mstep Hu. reflexivity.
Qed.

Lemma apply_loop_run xs : forall rv (w : World) rv' w1 c,
  apply_loop module xs rv w = Out (inr rv') w1 c ->
  exists a u,
    apply_run xs w c a u w1
    /\ rv' = ReturnValue (rv_added rv ++ a) (rv_updated rv ++ u)
                         (rv_removed rv) (rv_untouched rv).
Proof.
  induction xs as [| x xs IH]; intros rv w rv' w1 c H.
  - injection H as <- <- <-. exists [], []. split; [constructor |].
    rewrite !app_nil_r. destruct rv; reflexivity.
  - rewrite apply_loop_cons in H. cbn zeta in H.
    destruct (variables_create (create_body x) w) as [w2 |] eqn:Ec.
    + destruct (apply_loop module xs (append_added x rv) w2) as [r w3 c3] eqn:El.
      cbn [result final calls] in H. injection H as -> -> <-.
      destruct (IH _ _ _ _ _ El) as (a & u & Hrun & ->).
      exists (x :: a), u. split; [econstructor; eassumption |].
      cbn [append_added rv_added rv_updated rv_removed rv_untouched].
      rewrite <- app_assoc. reflexivity.
    + destruct (variables_delete _ _ w) as [w2 |] eqn:Ed; [| discriminate].
      destruct (variables_create (create_body x) w2) as [w3 |] eqn:Ec2; [| discriminate].
      destruct (apply_loop module xs (append_updated x rv) w3) as [r w4 c4] eqn:El.
      cbn [result final calls] in H. injection H as -> -> <-.
      destruct (IH _ _ _ _ _ El) as (a & u & Hrun & ->).
      exists a, (x :: u). split; [eapply apply_updated; eassumption |].
      cbn [append_updated rv_added rv_updated rv_removed rv_untouched].
      rewrite <- app_assoc. reflexivity.
Qed.

Lemma apply_run_loop xs : forall rv (w : World) w1 c a u,
  apply_run xs w c a u w1 ->
  apply_loop module xs rv w
  = Out (inr (ReturnValue (rv_added rv ++ a) (rv_updated rv ++ u)
                          (rv_removed rv) (rv_untouched rv))) w1 c.
Proof.
  intros rv w w1 c a u H. revert rv.
  induction H as [w | x xs w w1 w2 t a u Hc _ IH | x xs w w1 w2 w3 t a u Hc Hd Hc2 _ IH];
    intros rv.
  - cbn. unfold ret. rewrite !app_nil_r. destruct rv; reflexivity.
  - rewrite apply_loop_cons. cbn zeta. rewrite Hc, IH.
    cbn [result final calls append_added rv_added rv_updated rv_removed rv_untouched].
    rewrite <- app_assoc. reflexivity.
  - rewrite apply_loop_cons. cbn zeta. rewrite Hc, Hd, Hc2, IH.
    cbn [result final calls append_updated rv_added rv_updated rv_removed rv_untouched].
    rewrite <- app_assoc. reflexivity.
Qed.

(** One turn of the delete loop. *)
Lemma delete_loop_cons x xs rv (w : World) :
  delete_loop module (x :: xs) rv w =
  let key := dict_get x "key" in
  let scope := dict_get x "environment_scope" in
  match variables_delete key scope w with
  | Some w1 =>
      let o := delete_loop module xs (append_removed x rv) w1 in
      Out (result o) (final o) (EvDelete key scope :: calls o)
  | None => Out (inl GitlabError) w [EvDelete key scope]
  end.
Proof.
  cbn [delete_loop]. unfold bind at 1. rewrite delete_variable_real. cbn zeta.
  destruct (variables_delete _ _ w); reflexivity.
Qed.

End MethodFacts.

(** ** Lists *)

Section ListFacts.

Context {A : Type}.

Lemma filter_ext_elem (P Q : A -> Prop)
    `{!forall x, Decision (P x)} `{!forall x, Decision (Q x)} (l : list A) :
  (forall x, x ∈ l -> (P x <-> Q x)) -> filter P l = filter Q l.
Proof.
  induction l as [| x l IH]; intros Hl; [reflexivity |].
  rewrite !filter_cons.
  assert (Hx : P x <-> Q x) by (apply Hl, elem_of_cons; auto).
  rewrite IH by (intros y Hy; apply Hl, elem_of_cons; auto).
  destruct (decide (P x)), (decide (Q x)); tauto || reflexivity.
Qed.

Lemma filter_all (P : A -> Prop) `{!forall x, Decision (P x)} (l : list A) :
  (forall x, x ∈ l -> P x) -> filter P l = l.
Proof.
  induction l as [| x l IH]; intros Hl; [reflexivity |].
  rewrite filter_cons_True by (apply Hl, elem_of_cons; auto).
  f_equal. apply IH. intros y Hy. apply Hl, elem_of_cons. auto.
Qed.

Lemma filter_none (P : A -> Prop) `{!forall x, Decision (P x)} (l : list A) :
  (forall x, x ∈ l -> ¬ P x) -> filter P l = [].
Proof.
  induction l as [| x l IH]; intros Hl; [reflexivity |].
  rewrite filter_cons_False by (apply Hl, elem_of_cons; auto).
  apply IH. intros y Hy. apply Hl, elem_of_cons. auto.
Qed.

End ListFacts.

(** ** The reference service *)

Module RefStoreFacts.
Import RefStore.

(** *** Pages *)

Lemma chunks_spec n fuel : forall l : list dict,
  0 < n -> length l <= fuel ->
  concat (chunks fuel n l) = l /\ leading_pages (chunks fuel n l) = chunks fuel n l.
Proof.
  induction fuel as [| fuel IH]; intros l Hn Hl.
  - destruct l; [split; reflexivity | simpl in Hl; lia].
  - destruct l as [| x l]; [split; reflexivity |].
    cbn [chunks].
    assert (Hd : length (drop n (x :: l)) <= fuel).
    { rewrite length_drop. simpl in *. lia. }
    destruct (IH _ Hn Hd) as [IH1 IH2]. split.
    + cbn [concat]. rewrite IH1. apply take_drop.
    + cbn [leading_pages]. rewrite IH2.
      destruct n as [| n]; [lia |]. reflexivity.
Qed.

Lemma remote_variables_ref (w : store) : remote_variables w = w.
Proof.
  unfold remote_variables. cbn [variables_pages gitlab]. unfold pages.
  destruct (chunks_spec per_page (length w) w) as [H1 H2];
    [unfold per_page; lia | lia |].
  rewrite H2. exact H1.
Qed.

(** *** Normal variables *)

Lemma default_is_Some (d : dict) k v k' :
  is_Some (set_default d k v !! k') <-> k' = k \/ is_Some (d !! k').
Proof.
  unfold set_default. destruct (decide (dict_get d k = PNone)) as [H | H].
  - rewrite lookup_insert. case_decide as Hk.
    + subst. split; [auto | intros _; eexists; reflexivity].
    + split; [auto | intros [-> | ?]; [done | assumption]].
  - split; [auto |]. intros [-> | ?]; [| assumption].
    unfold dict_get in H. destruct (d !! k); [eexists; reflexivity | done].
Qed.

Lemma default_get_ne (d : dict) k v k' :
  k' <> k -> dict_get (set_default d k v) k' = dict_get d k'.
Proof.
  intros Hk. unfold set_default.
  destruct (decide (dict_get d k = PNone)); [| reflexivity].
  unfold dict_get. rewrite lookup_insert_ne by congruence. reflexivity.
Qed.

Lemma default_get_eq (d : dict) k v :
  v <> PNone -> dict_get (set_default d k v) k <> PNone.
Proof.
  intros Hv. unfold set_default.
  destruct (decide (dict_get d k = PNone)); [| assumption].
  unfold dict_get. rewrite lookup_insert_eq. exact Hv.
Qed.

Lemma normalize_normal item :
  wf_requested item -> exists d, normalize_item item = inr d /\ normal d.
Proof.
  intros [[name Hname] Hkeys]. unfold normalize_item, dict_pop. rewrite Hname.
  eexists. split; [reflexivity |]. split.
  - intros k. rewrite !default_is_Some.
    rewrite !lookup_insert_is_Some, lookup_delete_is_Some.
    assert (Hk : is_Some (item !! k) -> k ∈ option_names).
    { intros [v Hv]. exact (Hkeys k v Hv). }
    unfold option_names in Hk. unfold known.
    rewrite !elem_of_cons, elem_of_nil in *.
    split.
    + intros H.
      repeat match goal with
             | H : _ \/ _ |- _ => destruct H as [H | H]
             | H : _ /\ _ |- _ => destruct H as [? H]
             end; subst; auto 10.
      apply Hk in H.
      repeat (destruct H as [H | H]; [subst; auto 10; done |]). destruct H.
    + intros H.
      repeat (destruct H as [H | H]; [subst; auto 10 |]). destruct H.
  - rewrite default_get_ne by discriminate. apply default_get_eq. discriminate.
Qed.

Lemma known_lookup (d : dict) k :
  k ∈ known -> filter (fun kv : string * pyval => kv.1 ∈ known) d !! k = d !! k.
Proof.
  intros Hk. destruct (d !! k) as [v |] eqn:E.
  - apply map_lookup_filter_Some. split; [assumption | exact Hk].
  - apply map_lookup_filter_None. left. assumption.
Qed.

Lemma pair_of_known (e : dict) :
  pair_of (filter (fun kv : string * pyval => kv.1 ∈ known) e) = pair_of e.
Proof.
  unfold pair_of, dict_get. rewrite !known_lookup; [reflexivity | |];
    unfold known; rewrite !elem_of_cons; auto 10.
Qed.

Lemma known_normal (d : dict) :
  normal d -> filter (fun kv : string * pyval => kv.1 ∈ known) d = d.
Proof.
  intros [Hd _]. apply map_filter_id. intros k v Hv. cbn. apply Hd. eexists; eassumption.
Qed.

Lemma body_normal (d : dict) : normal d -> create_body d = d.
Proof.
  intros [Hd Hs]. unfold create_body.
  destruct (decide (dict_get d "environment_scope" = PNone)) as [? | _]; [done |].
  apply map_eq. intros k.
  assert (Hget : forall k', k' ∈ known -> Some (dict_get d k') = d !! k').
  { intros k' Hk'. apply Hd in Hk' as [v Hv]. unfold dict_get. rewrite Hv. reflexivity. }
  assert (Hin : forall k', k' ∈ known <-> k' = "key" \/ k' = "value" \/ k' = "masked"
                \/ k' = "protected" \/ k' = "variable_type" \/ k' = "environment_scope").
  { intros k'. unfold known. rewrite !elem_of_cons, elem_of_nil. tauto. }
  rewrite !lookup_insert.
  destruct (decide ("environment_scope" = k)) as [<- | ?]; [apply Hget, Hin; auto 10 |].
  destruct (decide ("key" = k)) as [<- | ?]; [apply Hget, Hin; auto 10 |].
  destruct (decide ("value" = k)) as [<- | ?]; [apply Hget, Hin; auto 10 |].
  destruct (decide ("masked" = k)) as [<- | ?]; [apply Hget, Hin; auto 10 |].
  destruct (decide ("protected" = k)) as [<- | ?]; [apply Hget, Hin; auto 10 |].
  destruct (decide ("variable_type" = k)) as [<- | ?]; [apply Hget, Hin; auto 10 |].
  rewrite lookup_empty. symmetry. apply eq_None_not_Some. intros HS.
  apply Hd, Hin in HS. repeat (destruct HS as [HS | HS]; [congruence |]). congruence.
Qed.

(** *** One variable per pair *)

Lemma same_variable_pair key scope (e : dict) :
  same_variable key scope e <-> pair_of e = (key, scope).
Proof. unfold same_variable, pair_of. split; [intros [-> ->]; reflexivity | intros [= -> ->]; done]. Qed.

Lemma holds_pair key scope (w : store) :
  holds key scope w <-> (key, scope) ∈ map pair_of w.
Proof.
  unfold holds. rewrite Exists_exists, list_elem_of_fmap.
  split; intros (e & H1 & H2).
  - exists e. split; [symmetry; apply same_variable_pair |]; assumption.
  - exists e. split; [| apply same_variable_pair; symmetry]; assumption.
Qed.

Lemma store_ok_inj (w : store) e e' :
  store_ok w -> e ∈ w -> e' ∈ w -> pair_of e = pair_of e' -> e = e'.
Proof.
  unfold store_ok. induction w as [| x w IH]; intros Hok He He' Hp.
  - inversion He.
  - cbn in Hok. apply NoDup_cons in Hok as [Hx Hok].
    apply elem_of_cons in He as [-> | He]; apply elem_of_cons in He' as [-> | He'].
    + reflexivity.
    + exfalso. apply Hx. rewrite Hp. apply list_elem_of_fmap. eauto.
    + exfalso. apply Hx. rewrite <- Hp. apply list_elem_of_fmap. eauto.
    + auto.
Qed.

Lemma store_ok_filter (P : dict -> Prop) `{!forall e, Decision (P e)} (w : store) :
  store_ok w -> store_ok (filter P w).
Proof.
  unfold store_ok. induction w as [| x w IH]; intros Hok; [constructor |].
  cbn in Hok. apply NoDup_cons in Hok as [Hx Hok].
  rewrite filter_cons. case_decide; [| auto].
  cbn. apply NoDup_cons. split; [| auto].
  intros Hin. apply Hx. apply list_elem_of_fmap in Hin as (e & -> & He).
  apply list_elem_of_filter in He as [_ He]. apply list_elem_of_fmap. eauto.
Qed.

(** *** [put] and [puts] *)

Lemma elem_of_put c (w : store) e :
  e ∈ put c w <-> e = c \/ (e ∈ w /\ pair_of e <> pair_of c).
Proof.
  unfold put. rewrite elem_of_app, list_elem_of_filter, list_elem_of_singleton. tauto.
Qed.

Lemma store_ok_put c (w : store) : store_ok w -> store_ok (put c w).
Proof.
  intros Hok. unfold put, store_ok. rewrite map_app. apply NoDup_app. repeat split.
  - apply (store_ok_filter _ w Hok).
  - intros p Hp Hc. cbn in Hc. apply list_elem_of_singleton in Hc as ->.
    apply list_elem_of_fmap in Hp as (e & Hpe & He).
    apply list_elem_of_filter in He as [Hne _]. congruence.
  - cbn. apply NoDup_singleton.
Qed.

Lemma store_ok_puts cs : forall w : store, store_ok w -> store_ok (puts cs w).
Proof.
  induction cs as [| c cs IH]; intros w Hok; [assumption |].
  cbn. apply IH, store_ok_put, Hok.
Qed.

Lemma elem_of_puts cs : forall (w : store) e,
  e ∈ puts cs w -> e ∈ cs \/ (e ∈ w /\ pair_of e ∉ map pair_of cs).
Proof.
  induction cs as [| c cs IH]; intros w e He; cbn in He.
  - right. split; [assumption | apply not_elem_of_nil].
  - apply IH in He as [He | [He Hn]].
    + left. apply elem_of_cons. auto.
    + apply elem_of_put in He as [-> | [He Hne]].
      * left. apply elem_of_cons. auto.
      * right. split; [assumption |]. cbn. rewrite not_elem_of_cons. auto.
Qed.

Lemma puts_keeps cs : forall (w : store) e,
  e ∈ w -> pair_of e ∉ map pair_of cs -> e ∈ puts cs w.
Proof.
  induction cs as [| c cs IH]; intros w e He Hn; [assumption |].
  cbn in Hn. apply not_elem_of_cons in Hn as [Hne Hn].
  cbn. apply IH; [| assumption]. apply elem_of_put. auto.
Qed.

Lemma puts_covers cs : forall (w : store) c,
  c ∈ cs -> pair_of c ∈ map pair_of (puts cs w).
Proof.
  induction cs as [| c0 cs IH]; intros w c Hc; [inversion Hc |].
  cbn. apply elem_of_cons in Hc as [-> | Hc]; [| auto].
  destruct (decide (pair_of c0 ∈ map pair_of cs)) as [Hin | Hin].
  - apply list_elem_of_fmap in Hin as (c' & -> & Hc'). auto.
  - apply list_elem_of_fmap. exists c0. split; [reflexivity |].
    apply puts_keeps; [| assumption]. apply elem_of_put. auto.
Qed.

Lemma puts_holds cs : forall (w : store) c,
  NoDup (map pair_of cs) -> c ∈ cs -> c ∈ puts cs w.
Proof.
  induction cs as [| c0 cs IH]; intros w c Hnd Hc; [inversion Hc |].
  cbn in Hnd. apply NoDup_cons in Hnd as [Hc0 Hnd].
  cbn. apply elem_of_cons in Hc as [-> | Hc]; [| auto].
  apply puts_keeps; [| assumption]. apply elem_of_put. auto.
Qed.

Lemma same_pair_elem (req : list dict) d d' :
  same_pair_same_variable req ->
  d ∈ req -> d' ∈ req -> pair_of d = pair_of d' -> d = d'.
Proof.
  unfold same_pair_same_variable. rewrite Forall_forall. intros H Hd Hd'.
  specialize (H d Hd). rewrite Forall_forall in H. exact (H d' Hd').
Qed.

Lemma puts_holds_same cs : forall (w : store) c,
  (forall d d', d ∈ cs -> d' ∈ cs -> pair_of d = pair_of d' -> d = d') ->
  c ∈ cs -> c ∈ puts cs w.
Proof.
  induction cs as [| c0 cs IH]; intros w c Hsame Hc; [inversion Hc |].
  assert (Hsame' : forall d d', d ∈ cs -> d' ∈ cs -> pair_of d = pair_of d' -> d = d').
  { intros d d' Hd Hd'. apply Hsame; apply elem_of_cons; auto. }
  cbn. apply elem_of_cons in Hc as [-> | Hc]; [| auto].
  destruct (decide (pair_of c0 ∈ map pair_of cs)) as [Hin | Hin].
  - apply list_elem_of_fmap in Hin as (c' & Hp & Hc').
    assert (c0 = c') as ->.
    { apply Hsame; [apply elem_of_cons; auto | apply elem_of_cons; auto | exact Hp]. }
    auto.
  - apply puts_keeps; [| assumption]. apply elem_of_put. auto.
Qed.

(** *** The calls on the service *)

Lemma delete_filter key scope (w : store) :
  filter (fun e => ¬ same_variable key scope e) w
  = filter (fun e => pair_of e <> (key, scope)) w.
Proof. apply list_filter_iff. intros e. rewrite same_variable_pair. reflexivity. Qed.

Lemma not_holds_filter key scope (w : store) :
  ¬ holds key scope w -> filter (fun e => pair_of e <> (key, scope)) w = w.
Proof.
  intros Hn. induction w as [| x w IH]; [reflexivity |].
  rewrite filter_cons. unfold holds in *. rewrite Exists_cons in Hn.
  case_decide as Hx.
  - f_equal. apply IH. tauto.
  - exfalso. apply Hn. left. apply same_variable_pair.
    destruct (decide (pair_of x = (key, scope))); [assumption | contradiction].
Qed.

Lemma not_holds_deleted key scope (w : store) :
  ¬ holds key scope (filter (fun e => pair_of e <> (key, scope)) w).
Proof.
  rewrite holds_pair, list_elem_of_fmap. intros (e & Hp & He).
  apply list_elem_of_filter in He as [Hne _]. congruence.
Qed.

(** On the reference service the apply phase never raises, and leaves
    [puts cs w]. *)
Lemma ref_apply_run cs : forall w : store,
  Forall normal cs -> exists t a u, apply_run cs w t a u (puts cs w).
Proof.
  induction cs as [| c cs IH]; intros w Hn.
  - exists [], [], []. constructor.
  - apply Forall_cons in Hn as [Hc Hn].
    destruct (IH (put c w) Hn) as (t & a & u & Hrun).
    pose proof (body_normal c Hc) as Hb.
    destruct (decide (holds (dict_get c "key") (dict_get c "environment_scope") w))
      as [Hh | Hh].
    + do 3 eexists. eapply apply_updated; [| | | exact Hrun].
      * rewrite Hb. cbn. unfold store_create. rewrite decide_True by assumption. reflexivity.
      * cbn. unfold store_delete. rewrite decide_True by assumption. reflexivity.
      * rewrite Hb. cbn. unfold store_create. rewrite delete_filter.
        rewrite decide_False by apply not_holds_deleted. reflexivity.
    + do 3 eexists. eapply apply_added; [| exact Hrun].
      rewrite Hb. cbn. unfold store_create. rewrite decide_False by assumption.
      unfold put. fold (pair_of c). unfold pair_of at 2.
      rewrite not_holds_filter by assumption. reflexivity.
Qed.

Lemma apply_run_lists {World} {gl : GitlabInstance World} cs (w : World) t a u w1 :
  apply_run cs w t a u w1 -> forall x, x ∈ a ++ u <-> x ∈ cs.
Proof.
  induction 1 as [| x xs w w1 w2 t a u _ _ IH | x xs w w1 w2 w3 t a u _ _ _ _ IH];
    intros y.
  - reflexivity.
  - cbn. rewrite !elem_of_cons, IH. reflexivity.
  - rewrite elem_of_app, !elem_of_cons, <- IH, elem_of_app. tauto.
Qed.

(** The delete loop on variables the service holds, one per pair. *)
Lemma ref_delete_loop module xs : forall rv (w : store),
  check_mode module = false ->
  NoDup (map pair_of xs) ->
  (forall x, x ∈ xs -> pair_of x ∈ map pair_of w) ->
  delete_loop module xs rv w
  = Out (inr (ReturnValue (rv_added rv) (rv_updated rv) (rv_removed rv ++ xs)
                          (rv_untouched rv)))
        (filter (fun e => pair_of e ∉ map pair_of xs) w)
        (map (fun x => EvDelete (dict_get x "key") (dict_get x "environment_scope")) xs).
Proof.
  induction xs as [| x xs IH]; intros rv w Hreal Hnd Hin.
  - cbn. unfold ret. rewrite app_nil_r. f_equal; [destruct rv; reflexivity |].
    symmetry. apply filter_all. intros e _. apply not_elem_of_nil.
  - rewrite delete_loop_cons by assumption. cbn zeta.
    cbn in Hnd. apply NoDup_cons in Hnd as [Hx Hnd].
    cbn [variables_delete gitlab]. unfold store_delete.
    rewrite decide_True.
    2:{ apply holds_pair. apply (Hin x). apply elem_of_cons. auto. }
    rewrite delete_filter. rewrite IH; [| assumption | assumption |].
    + cbn [result final calls append_removed rv_added rv_updated rv_removed rv_untouched].
      rewrite <- app_assoc. cbn [app map]. f_equal.
      rewrite list_filter_filter. apply list_filter_iff. intros e.
      fold (pair_of x). rewrite not_elem_of_cons. tauto.
    + intros y Hy. apply list_elem_of_fmap.
      assert (Hyw : pair_of y ∈ map pair_of w) by (apply Hin, elem_of_cons; auto).
      apply list_elem_of_fmap in Hyw as (e & Hpe & He).
      exists e. split; [assumption |]. apply list_elem_of_filter. split; [| assumption].
      fold (pair_of x). intros Heq. apply Hx. rewrite <- Heq, <- Hpe.
      apply list_elem_of_fmap. eauto.
Qed.

(** *** The present block *)

Lemma for_each_normal requested :
  Forall wf_requested requested ->
  exists req, for_each normalize_item requested = inr req /\ Forall normal req.
Proof.
  induction 1 as [| item requested Hwf _ (req & Hreq & Hn)].
  - exists []. split; [reflexivity | constructor].
  - destruct (normalize_normal item Hwf) as (d & Hd & Hnd).
    exists (d :: req). cbn. rewrite Hd, Hreq. split; [reflexivity | constructor; assumption].
Qed.

Lemma filter_returned_variables_elem (w : store) d :
  d ∈ filter_returned_variables w
  <-> exists e, e ∈ w /\ d = filter (fun kv : string * pyval => kv.1 ∈ known) e.
Proof.
  unfold filter_returned_variables. rewrite list_elem_of_fmap.
  split; intros (e & H1 & H2); exists e; auto.
Qed.

Lemma filter_returned_variables_pairs (w : store) :
  map pair_of (filter_returned_variables w) = map pair_of w.
Proof.
  unfold filter_returned_variables. rewrite map_map. apply map_ext. apply pair_of_known.
Qed.

Section Applied.

Variables (req : list dict) (w : store).
Hypothesis req_normal : Forall normal req.
Hypothesis w_ok : store_ok w.

(** The candidates, and the service after the apply phase. *)
Abbreviation cands := (filter (fun x => x ∉ filter_returned_variables w) req).
Abbreviation w1 := (puts cands w).

Lemma cands_normal : Forall normal cands.
Proof.
  apply Forall_forall. intros c Hc. apply list_elem_of_filter in Hc as [_ Hc].
  rewrite Forall_forall in req_normal. auto.
Qed.

(** After the apply phase a variable of the service is one of the
    requested if and only if its pair is a requested one. *)
Lemma applied_member e :
  e ∈ w1 ->
  (filter (fun kv : string * pyval => kv.1 ∈ known) e ∈ req
   <-> pair_of e ∈ map pair_of req).
Proof.
  intros He. split.
  - intros Hin. rewrite <- pair_of_known. apply list_elem_of_fmap. eauto.
  - intros Hp. apply list_elem_of_fmap in Hp as (d & Hpd & Hd).
    apply elem_of_puts in He as [He | [He Hn]].
    + apply list_elem_of_filter in He as [_ He].
      rewrite known_normal; [assumption |].
      rewrite Forall_forall in req_normal. auto.
    + destruct (decide (d ∈ filter_returned_variables w)) as [Hex | Hex].
      * apply filter_returned_variables_elem in Hex as (e0 & He0 & ->).
        rewrite pair_of_known in Hpd.
        rewrite (store_ok_inj w e e0 w_ok He He0 Hpd). assumption.
      * exfalso. apply Hn. rewrite Hpd. apply list_elem_of_fmap. exists d.
        split; [reflexivity |]. apply list_elem_of_filter. auto.
Qed.

(** Every requested pair is held after the apply phase. *)
Lemma applied_covers d : d ∈ req -> pair_of d ∈ map pair_of w1.
Proof.
  intros Hd. destruct (decide (d ∈ filter_returned_variables w)) as [Hex | Hex].
  - apply filter_returned_variables_elem in Hex as (e0 & He0 & ->).
    rewrite pair_of_known.
    destruct (decide (pair_of e0 ∈ map pair_of cands)) as [Hin | Hin].
    + apply list_elem_of_fmap in Hin as (c & -> & Hc). apply puts_covers, Hc.
    + apply list_elem_of_fmap. exists e0. split; [reflexivity |].
      apply puts_keeps; assumption.
  - apply puts_covers. apply list_elem_of_filter. auto.
Qed.

(** With one requested variable per pair, every requested variable is
    held, as it is, after the apply phase. *)
Lemma applied_holds d :
  NoDup (map pair_of req) -> d ∈ req -> d ∈ filter_returned_variables w1.
Proof.
  intros Hnd Hd. apply filter_returned_variables_elem.
  destruct (decide (d ∈ filter_returned_variables w)) as [Hex | Hex].
  - apply filter_returned_variables_elem in Hex as (e0 & He0 & ->).
    exists e0. split; [| reflexivity]. apply puts_keeps; [assumption |].
    intros Hin. apply list_elem_of_fmap in Hin as (c & Hpc & Hc).
    apply list_elem_of_filter in Hc as [Hc1 Hc2]. apply Hc1.
    assert (c = filter (fun kv : string * pyval => kv.1 ∈ known) e0) as ->.
    { apply (store_ok_inj req); [exact Hnd | assumption | assumption |].
      rewrite pair_of_known. congruence. }
    apply filter_returned_variables_elem. eauto.
  - exists d. split.
    + apply puts_holds.
      * apply (store_ok_filter _ req Hnd).
      * apply list_elem_of_filter. auto.
    + symmetry. apply known_normal. rewrite Forall_forall in req_normal. auto.
Qed.

(** The same, for requested variables that may be repeated as long as two
    with the same pair are the same. *)
Lemma applied_holds_same d :
  same_pair_same_variable req -> d ∈ req -> d ∈ filter_returned_variables w1.
Proof.
  intros Hsame Hd. apply filter_returned_variables_elem.
  destruct (decide (d ∈ filter_returned_variables w)) as [Hex | Hex].
  - apply filter_returned_variables_elem in Hex as (e0 & He0 & ->).
    exists e0. split; [| reflexivity]. apply puts_keeps; [assumption |].
    intros Hin. apply list_elem_of_fmap in Hin as (c & Hpc & Hc).
    apply list_elem_of_filter in Hc as [Hc1 Hc2]. apply Hc1.
    assert (c = filter (fun kv : string * pyval => kv.1 ∈ known) e0) as ->.
    { apply (same_pair_elem req); [exact Hsame | assumption | assumption |].
      rewrite pair_of_known. congruence. }
    apply filter_returned_variables_elem. eauto.
  - exists d. split.
    + apply puts_holds_same.
      * intros x x' Hx Hx'. apply list_elem_of_filter in Hx as [_ Hx].
        apply list_elem_of_filter in Hx' as [_ Hx'].
        apply (same_pair_elem req); assumption.
      * apply list_elem_of_filter. auto.
    + symmetry. apply known_normal. rewrite Forall_forall in req_normal. auto.
Qed.

(** The variables that the purge removes, and what it leaves. *)
Lemma purge_remove :
  filter (fun x => x ∉ req) (filter_returned_variables w1)
  = filter (fun x => pair_of x ∉ map pair_of req) (filter_returned_variables w1).
Proof.
  apply filter_ext_elem. intros x Hx.
  apply filter_returned_variables_elem in Hx as (e & He & ->).
  rewrite pair_of_known. rewrite (applied_member e He). reflexivity.
Qed.

Lemma purge_leaves :
  filter (fun e => pair_of e ∉
            map pair_of (filter (fun x => x ∉ req) (filter_returned_variables w1))) w1
  = filter (fun e => pair_of e ∈ map pair_of req) w1.
Proof.
  assert (Hok1 : store_ok w1) by (apply store_ok_puts, w_ok).
  apply filter_ext_elem. intros e He. split.
  - intros Hn. apply (applied_member e He).
    destruct (decide (filter (fun kv : string * pyval => kv.1 ∈ known) e ∈ req))
      as [? | Hne]; [assumption |].
    exfalso. apply Hn. rewrite <- pair_of_known. apply list_elem_of_fmap.
    eexists. split; [reflexivity |]. apply list_elem_of_filter. split; [exact Hne |].
    apply filter_returned_variables_elem. eauto.
  - intros Hp Hin. apply list_elem_of_fmap in Hin as (x & Hpx & Hx).
    apply list_elem_of_filter in Hx as [Hx1 Hx2].
    apply filter_returned_variables_elem in Hx2 as (e' & He' & ->).
    rewrite pair_of_known in Hpx.
    rewrite <- (store_ok_inj w1 e e' Hok1 He He' Hpx) in Hx1.
    apply Hx1. apply (applied_member e He). assumption.
Qed.

Lemma purge_pairs p :
  p ∈ map pair_of (filter (fun e => pair_of e ∈ map pair_of req) w1)
  <-> p ∈ map pair_of req.
Proof.
  rewrite list_elem_of_fmap. split.
  - intros (e & -> & He). apply list_elem_of_filter in He as [He _]. assumption.
  - intros Hp. pose proof Hp as Hp'.
    apply list_elem_of_fmap in Hp as (d & -> & Hd).
    pose proof (applied_covers d Hd) as Hc.
    apply list_elem_of_fmap in Hc as (e & Hpe & He).
    exists e. split; [assumption |]. apply list_elem_of_filter.
    split; [rewrite <- Hpe |]; assumption.
Qed.

End Applied.

(** *** [native_python_main] on the reference service, state present *)

Lemma ref_native_present module (purge : bool) (requested req : list dict) (w : store) :
  check_mode module = false ->
  for_each normalize_item requested = inr req ->
  Forall normal req ->
  store_ok w ->
  let cands := filter (fun x => x ∉ filter_returned_variables w) req in
  let w1 := puts cands w in
  let remove :=
    if purge then filter (fun x => x ∉ req) (filter_returned_variables w1) else [] in
  let w2 :=
    if purge then filter (fun e => pair_of e ∈ map pair_of req) w1 else w1 in
  exists t a u,
    apply_run cands w t a u w1
    /\ native_python_main filter_returned_variables module purge requested "present" w
       = Out (inr ((0 <? length (a ++ remove ++ u))%nat,
                   ReturnValue a u remove [], w, w2))
             w2
             (list_calls w ++ list_calls w
                ++ (t ++ (if purge
                          then list_calls w1
                                 ++ map (fun x => EvDelete (dict_get x "key")
                                                    (dict_get x "environment_scope"))
                                        remove
                          else []))
                ++ list_calls w2).
Proof.
  intros Hreal Hreq Hn Hok cands w1 remove w2.
  destruct (ref_apply_run cands w (cands_normal req w Hn)) as (t & a & u & Hrun).
  exists t, a, u. split; [exact Hrun |].
  rewrite native_eq, Hreq. cbn zeta. rewrite remote_variables_ref.
  unfold state_block. rewrite decide_True by reflexivity.
  unfold present_block. fold cands.
  pose proof (apply_run_loop module Hreal cands (ReturnValue [] [] [] []) w w1 t a u Hrun)
    as Happly. cbn [rv_added rv_updated rv_removed rv_untouched app] in Happly.
  fold w1 in Happly. mstep Happly.
  subst remove w2. destruct purge.
  - mstep (list_all_spec w1). rewrite remote_variables_ref.
    rewrite ref_delete_loop; [| assumption | |].
    + cbn [result final calls rv_added rv_updated rv_removed rv_untouched app].
      rewrite finish_real by assumption.
      cbn [rv_added rv_updated rv_removed rv_untouched].
      rewrite remote_variables_ref.
      subst w1 cands. rewrite (purge_leaves req w Hn Hok). reflexivity.
    + apply (store_ok_filter _ (filter_returned_variables w1)).
      unfold store_ok. rewrite filter_returned_variables_pairs.
      apply store_ok_puts, Hok.
    + intros x Hx. apply list_elem_of_filter in Hx as [_ Hx].
      rewrite <- filter_returned_variables_pairs. apply list_elem_of_fmap. eauto.
  - unfold ret. cbn [result final calls].
    rewrite finish_real by assumption.
    cbn [rv_added rv_updated rv_removed rv_untouched].
    rewrite remote_variables_ref, !app_nil_r. reflexivity.
Qed.

(** *** [native_python_main] on the reference service, state absent with purge *)

Lemma for_each_strip (l : list dict) :
  Forall (fun d : dict => is_Some (d !! "value") /\ is_Some (d !! "variable_type")) l ->
  for_each strip_item l
  = inr (map (fun d : dict => delete "variable_type" (delete "value" d)) l).
Proof.
  induction 1 as [| d l [[v Hv] [t Ht]] _ IH]; [reflexivity |].
  cbn [for_each map]. rewrite IH. unfold strip_item, dict_pop. rewrite Hv.
  rewrite lookup_delete_ne by discriminate. rewrite Ht. reflexivity.
Qed.

Lemma pair_of_strip (d : dict) :
  pair_of (delete "variable_type" (delete "value" d)) = pair_of d.
Proof.
  unfold pair_of, dict_get. rewrite !lookup_delete_ne by discriminate. reflexivity.
Qed.

Lemma normal_has (d : dict) k : normal d -> k ∈ known -> is_Some (d !! k).
Proof. intros [Hd _] Hk. apply Hd, Hk. Qed.

(** X16. With the state absent and purge, a real run deletes every variable
    of the service, whatever is requested. *)
Lemma absent_purge_empties module (requested : list dict) (w : store) :
  check_mode module = false ->
  Forall wf_requested requested ->
  store_ok w ->
  Forall (fun e : dict => is_Some (e !! "value") /\ is_Some (e !! "variable_type")) w ->
  exists change rv c,
    native_python_main filter_returned_variables module true requested "absent" w
    = Out (inr (change, rv, w, [])) [] c
    /\ rv_removed rv
       = map (fun d : dict => delete "variable_type" (delete "value" d))
             (filter_returned_variables w).
Proof.
  intros Hreal Hwf Hok Hattr.
  destruct (for_each_normal requested Hwf) as (req & Hreq & Hn).
  rewrite native_eq, Hreq. cbn zeta. rewrite remote_variables_ref.
  unfold state_block. rewrite decide_False by discriminate.
  rewrite decide_True by reflexivity. unfold absent_block.
  rewrite for_each_strip.
  2:{ apply Forall_forall. intros d Hd.
      apply filter_returned_variables_elem in Hd as (e & He & ->).
      rewrite Forall_forall in Hattr. destruct (Hattr e He) as [Hv Ht].
      rewrite !known_lookup; [auto | |]; unfold known; rewrite !elem_of_cons; auto 10. }
  rewrite for_each_strip.
  2:{ apply Forall_forall. intros d Hd. rewrite Forall_forall in Hn.
      split; apply normal_has; auto; unfold known; rewrite !elem_of_cons; auto 10. }
  cbn [lift]. rewrite !bind_ret_l. cbn [negb].
  set (existing := map _ (filter_returned_variables w)).
  assert (Hpairs : map pair_of existing = map pair_of w).
  { subst existing. rewrite map_map. rewrite <- filter_returned_variables_pairs.
    apply map_ext. intros d. apply pair_of_strip. }
  rewrite ref_delete_loop; [| assumption | rewrite Hpairs; exact Hok |].
  2:{ intros x Hx. rewrite <- Hpairs. apply list_elem_of_fmap. eauto. }
  cbn [result final calls rv_added rv_updated rv_removed rv_untouched app].
  rewrite Hpairs.
  rewrite (filter_none _ w).
  2:{ intros e He Hnot. apply Hnot. apply list_elem_of_fmap. eauto. }
  rewrite finish_real by assumption. rewrite remote_variables_ref.
  do 3 eexists. split; reflexivity.
Qed.

End RefStoreFacts.

(** ** What [native_python_main] and [main] return *)

Section Returned.

Context {World : Type} {gl : GitlabInstance World}.
Variable frv : list dict -> list dict.

Lemma native_result module purge requested state (w : World) change raw before after :
  result (native_python_main frv module purge requested state w)
    = inr (change, raw, before, after) ->
  exists req rv0,
    for_each normalize_item requested = inr req
    /\ result (state_block frv module purge state req (frv (remote_variables w))
                 (ReturnValue [] [] [] []) w) = inr rv0
    /\ finish module state req (frv (remote_variables w)) rv0 = (change, raw).
Proof.
  rewrite native_eq. destruct (for_each normalize_item requested) as [e | req];
    [discriminate |].
  cbn zeta. destruct (result (state_block _ _ _ _ _ _ _ _)) as [e | rv0] eqn:E;
    [discriminate |].
  cbn [result]. intros [= H _ _]. exists req, rv0. auto.
Qed.

Lemma main_result module (w : World) changed gv :
  result (main frv module w) = inr (changed, gv) ->
  exists raw before after,
    result (native_python_main frv module (params_purge module)
              (params_variables module) (params_state module) w)
      = inr (changed, raw, before, after)
    /\ gv = payload module raw before after.
Proof.
  rewrite main_eq. destruct (decide (params_vars module = ∅)) as [_ | _]; [| discriminate].
  destruct (validation _ _) as [e' | [|]]; try discriminate.
  cbn zeta.
  destruct (result (native_python_main _ _ _ _ _ _))
    as [e | [[[changed' raw] before] after]] eqn:E; [discriminate |].
  cbn [result]. intros [= -> <-]. eauto.
Qed.

(** [vars_to_variables] is not bound in the module: with [vars] given,
    [main] ends on the [NameError], before any call. *)
Lemma vars_raises_NameError module (w : World) :
  params_vars module <> ∅ ->
  main frv module w = Out (inl (NameError "vars_to_variables")) w [].
Proof. intros H. rewrite main_eq. rewrite decide_False by assumption. reflexivity. Qed.

Lemma finish_change module state req existing rv0 change raw :
  finish module state req existing rv0 = (change, raw) ->
  change = (0 <? length (rv_added raw ++ rv_removed raw ++ rv_updated raw))%nat.
Proof.
  unfold finish.
  destruct (if check_mode module then compare req existing state else ([], [], []))
    as [[untouched updated] added].
  intros [= <- <-]. reflexivity.
Qed.

Lemma compare_other_state req existing state :
  state <> "present" -> compare req existing state = ([], [], []).
Proof. intros H. unfold compare. rewrite decide_False by assumption. reflexivity. Qed.

Lemma delete_loop_keeps module xs : forall rv (w : World) rv',
  result (delete_loop module xs rv w) = inr rv' ->
  rv_added rv' = rv_added rv /\ rv_updated rv' = rv_updated rv.
Proof.
  induction xs as [| x xs IH]; intros rv w rv' H.
  - injection H as <-. auto.
  - cbn [delete_loop] in H. apply bind_inr in H as (ok & _ & H).
    apply IH in H as [-> ->]. destruct ok; auto.
Qed.

Lemma any_value_is_None_found variables :
  Forall (fun x : dict => is_Some (x !! "value")) variables ->
  Exists (fun x : dict => x !! "value" = Some PNone) variables ->
  any_value_is_None variables = inr true.
Proof.
  induction 1 as [| x variables [v Hv] _ IH]; intros Hex.
  - inversion Hex.
  - cbn. rewrite Hv. destruct (decide (v = PNone)) as [? | Hne]; [reflexivity |].
    apply IH. apply Exists_cons in Hex as [Hx | ?]; [| assumption]. congruence.
Qed.

End Returned.

(** ** [compare] after the renaming of ['name'] *)

Lemma key_scope_key k s : key_scope k s !! "key" = Some k.
Proof. unfold key_scope. apply lookup_insert_eq. Qed.

(** [native_python_main] calls [compare] on variables whose ['name'] has
    become ['key']: the item it looks up has the key [None], and no variable
    is classified as updated when the remote variables have a key. *)
Lemma compare_updated_empty (req existing : list dict) :
  Forall (fun d : dict => d !! "name" = None) req ->
  Forall (fun e : dict => dict_get e "key" <> PNone) existing ->
  (compare req existing "present").1.2 = [].
Proof.
  intros Hreq Hex. unfold compare. rewrite decide_True by reflexivity.
  set (ks := map _ existing).
  assert (Hks : forall s, key_scope PNone s ∉ ks).
  { intros s Hin. apply list_elem_of_fmap in Hin as (e & He & Hin).
    rewrite Forall_forall in Hex. apply (Hex e Hin).
    apply (f_equal (fun d : dict => d !! "key")) in He.
    rewrite !key_scope_key in He. congruence. }
  assert (Hfold : forall acc, acc.1.2 = [] ->
            (fold_left (compare_step existing ks) req acc).1.2 = []).
  { induction Hreq as [| d req Hd _ IH]; intros acc Hacc; [exact Hacc |].
    cbn [fold_left]. apply IH. destruct acc as [[untouched updated] added].
    cbn in Hacc. subst updated. unfold compare_step.
    destruct (decide (d ∈ existing)); [reflexivity |].
    assert (Hname : dict_get d "name" = PNone) by (unfold dict_get; rewrite Hd; reflexivity).
    rewrite Hname. rewrite decide_False by apply Hks. reflexivity. }
  apply Hfold. reflexivity.
Qed.

(** ** Check mode *)

Section CheckMode.

Context {World : Type} {gl : GitlabInstance World}.
Variable frv : list dict -> list dict.
Variable module : AnsibleModule.
Hypothesis dry_run : check_mode module = true.

Lemma quiet_list_calls (w : World) : quiet (list_calls w).
Proof. unfold quiet, list_calls. apply Forall_forall. intros e He.
  apply list_elem_of_fmap in He as (n & -> & _). reflexivity. Qed.

Lemma apply_loop_check xs : forall rv (w : World),
  apply_loop module xs rv w
  = Out (inr (ReturnValue (rv_added rv ++ xs) (rv_updated rv) (rv_removed rv)
                          (rv_untouched rv))) w [].
Proof.
  induction xs as [| x xs IH]; intros rv w.
  - cbn. unfold ret. rewrite app_nil_r. destruct rv; reflexivity.
  - cbn [apply_loop].
    assert (Ht : try_except
              (do ok <- create_variable module x;
               ret (if ok : bool then append_added x rv else rv))
              (do ok <- update_variable module x;
               ret (if ok : bool then append_updated x rv else rv)) w
            = Out (inr (append_added x rv)) w []).
    { unfold try_except, create_variable. rewrite dry_run. reflexivity. }
    mstep Ht. rewrite IH.
    cbn [result final calls app append_added rv_added rv_updated rv_removed rv_untouched].
    rewrite <- app_assoc. reflexivity.
Qed.

Lemma delete_loop_check xs : forall rv (w : World),
  delete_loop module xs rv w
  = Out (inr (ReturnValue (rv_added rv) (rv_updated rv) (rv_removed rv ++ xs)
                          (rv_untouched rv))) w [].
Proof.
  induction xs as [| x xs IH]; intros rv w.
  - cbn. unfold ret. rewrite app_nil_r. destruct rv; reflexivity.
  - cbn [delete_loop].
    assert (Hd : delete_variable module x w = Out (inr true) w []).
    { unfold delete_variable. rewrite dry_run. reflexivity. }
    mstep Hd. rewrite IH.
    cbn [result final calls app append_removed rv_added rv_updated rv_removed rv_untouched].
    rewrite <- app_assoc. reflexivity.
Qed.

Lemma state_block_check purge state req existing rv (w : World) :
  final (state_block frv module purge state req existing rv w) = w
  /\ quiet (calls (state_block frv module purge state req existing rv w)).
Proof.
  unfold state_block.
  destruct (decide (state = "present")) as [_ | _];
    [| destruct (decide (state = "absent")) as [_ | _]].
  - unfold present_block. mstep (apply_loop_check
      (filter (fun x => x ∉ existing) req) rv w).
    destruct purge.
    + mstep (list_all_spec w). rewrite delete_loop_check. cbn [result final calls app].
      split; [reflexivity |]. rewrite app_nil_r. apply quiet_list_calls.
    + split; [reflexivity | constructor].
  - unfold absent_block.
    destruct (for_each strip_item existing) as [e | existing'];
      [split; [reflexivity | constructor] |].
    cbn [lift]. rewrite bind_ret_l.
    destruct (for_each strip_item req) as [e | req'];
      [split; [reflexivity | constructor] |].
    cbn [lift]. rewrite bind_ret_l.
    destruct purge; cbn [negb]; rewrite delete_loop_check; split;
      reflexivity || constructor.
  - split; [reflexivity | constructor].
Qed.

(** X6. In check mode [main] leaves the remote state as it is and makes no
    call that creates or deletes. *)
Lemma check_mode_no_mutating_call (w : World) :
  final (main frv module w) = w /\ quiet (calls (main frv module w)).
Proof.
  rewrite main_eq.
  destruct (decide (params_vars module = ∅)) as [_ | _];
    [| split; [reflexivity | constructor]].
  destruct (validation _ _) as [e | [|]]; try (split; [reflexivity | constructor]).
  cbn zeta. rewrite native_eq.
  destruct (for_each normalize_item (params_variables module)) as [e | req].
  - cbn [result final calls]. split; [reflexivity |].
    constructor; [reflexivity |]. apply Forall_app. split; apply quiet_list_calls.
  - cbn zeta.
    destruct (state_block_check (params_purge module) (params_state module) req
                (frv (remote_variables w)) (ReturnValue [] [] [] []) w) as [Hw Hq].
    destruct (state_block frv module _ _ _ _ _ w) as [[e | rv0] w1 c1];
      cbn [result final calls] in *; subst w1.
    + split; [reflexivity |]. constructor; [reflexivity |].
      repeat (apply Forall_app; split); solve [apply quiet_list_calls | exact Hq].
    + destruct (finish module _ _ _ rv0) as [change raw]. cbn [result final calls].
      split; [reflexivity |]. constructor; [reflexivity |].
      repeat (apply Forall_app; split); solve [apply quiet_list_calls | exact Hq].
Qed.

End CheckMode.

(** ** The claims *)

Section Claims.

Context {World : Type} {gl : GitlabInstance World}.
Variable frv : list dict -> list dict.

(** C1. In a real run with the state present, the variables applied are
    the requested ones, normalized, that are not among the filtered remote
    variables; on each in turn a create is tried, a create that fails is
    followed by a delete and a second create, and the variable is among
    the added after a create that succeeded and among the updated after
    the delete and create. This is stated both ways. Whenever the service
    answers the creates and deletes of the candidates so ([apply_run]:
    every create either succeeds or fails and is followed by a delete and
    a create that succeed), the run makes exactly these calls after the
    two listings, has these added and updated lists and goes on from the
    remote state so reached, with the purge if asked and the last listing;
    a failed create does not end the run. And a run that returns has gone
    through the candidates in this way. *)
Theorem present_applies_create_then_update module purge (requested req : list dict)
    (w : World) :
  check_mode module = false ->
  for_each normalize_item requested = inr req ->
  let out := native_python_main frv module purge requested "present" w in
  let cands := filter (fun x => x ∉ frv (remote_variables w)) req in
  (* the code runs the apply phase as the specification words it: whenever
     every create that fails is followed by a delete and a create that
     succeed, the run goes through the candidates with these calls, has
     added [a] and updated [u], and goes on from [w1] with the purge, if
     any, and the last listing *)
  (forall t a u w1,
     apply_run cands w t a u w1 ->
     let rv1 := ReturnValue a u [] [] in
     let o := if purge
              then delete_loop module
                     (filter (fun x => x ∉ req) (frv (remote_variables w1))) rv1 w1
              else Out (inr rv1) w1 [] in
     out =
     match result o with
     | inl e =>
         Out (inl e) (final o)
             (list_calls w ++ list_calls w ++ t
                ++ (if purge then list_calls w1 else []) ++ calls o)
     | inr rv =>
         Out (inr ((0 <? length (rv_added rv ++ rv_removed rv ++ rv_updated rv))%nat,
                   rv, remote_variables w, remote_variables (final o)))
             (final o)
             (list_calls w ++ list_calls w ++ t
                ++ (if purge then list_calls w1 else []) ++ calls o
                ++ list_calls (final o))
     end)
  (* and a run that returns has run the apply phase so *)
  /\ (forall change rv before after,
        result out = inr (change, rv, before, after) ->
        exists t w1 rest,
          apply_run cands w t (rv_added rv) (rv_updated rv) w1
          /\ calls out = list_calls w ++ list_calls w ++ t ++ rest).
Proof.
  intros Hreal Hreq. cbn zeta. split.
  - intros t a u w1 Hrun.
    rewrite native_eq, Hreq. cbn zeta. unfold state_block.
    rewrite decide_True by reflexivity. unfold present_block.
    pose proof (apply_run_loop module Hreal _ (ReturnValue [] [] [] []) w w1 t a u Hrun)
      as Happly.
    cbn [rv_added rv_updated rv_removed rv_untouched app] in Happly.
    rewrite (bind_ok _ _ _ _ _ _ Happly).
    destruct purge.
    + rewrite (bind_ok _ _ _ _ _ _ (list_all_spec w1)).
      destruct (delete_loop module
                  (filter (fun x => x ∉ req) (frv (remote_variables w1)))
                  (ReturnValue a u [] []) w1) as [[e | rv] w2 c2];
        cbn [result final calls].
      * rewrite <- ?app_assoc. reflexivity.
      * rewrite finish_real by assumption. rewrite <- ?app_assoc. reflexivity.
    + unfold ret. cbn [result final calls].
      rewrite finish_real by assumption. rewrite <- ?app_assoc. reflexivity.
  - intros change rv before after H.
    destruct (native_result frv _ _ _ _ _ _ _ _ _ H) as (req' & rv0 & Hreq' & Hblock & Hfin).
    rewrite Hreq in Hreq'. injection Hreq' as <-.
    rewrite native_eq, Hreq. cbn zeta. rewrite Hblock.
    rewrite finish_real in Hfin by assumption. injection Hfin as _ <-.
    unfold state_block in *. rewrite decide_True in * by reflexivity.
    unfold present_block in *.
    set (cands := filter (fun x => x ∉ frv (remote_variables w)) req) in *.
    destruct (apply_loop module cands (ReturnValue [] [] [] []) w)
      as [[e | rv1] w1 c1] eqn:E.
    + rewrite (bind_raise _ _ _ _ _ _ E) in Hblock. discriminate.
    + destruct (apply_loop_run module Hreal cands _ _ _ _ _ E) as (a & u & Hrun & Hrv1).
      cbn [rv_added rv_updated rv_removed rv_untouched app] in Hrv1.
      rewrite (bind_ok _ _ _ _ _ _ E) in *. cbn [result final calls] in *.
      assert (Hkeep : rv_added rv0 = a /\ rv_updated rv0 = u).
      { destruct purge.
        - rewrite (bind_ok _ _ _ _ _ _ (list_all_spec w1)) in Hblock.
          cbn [result] in Hblock. apply delete_loop_keeps in Hblock as [-> ->].
          subst rv1. auto.
        - injection Hblock as <-. subst rv1. auto. }
      destruct Hkeep as [-> ->].
      exists c1, w1. eexists. split; [exact Hrun |].
      cbn [calls]. rewrite <- !app_assoc. reflexivity.
Qed.

(** C6. The change flag that [main] hands to [exit_json] is true if and
    only if the added, updated and removed lists of the result, put
    together, are not empty. *)
Theorem changed_iff_lists_nonempty module (w : World) changed gv :
  result (main frv module w) = inr (changed, gv) ->
  changed = true <-> gv_added gv ++ gv_updated gv ++ gv_removed gv <> [].
Proof.
  intros H. apply main_result in H as (raw & before & after & H & ->).
  apply native_result in H as (req & rv0 & _ & _ & H).
  apply finish_change in H as ->. cbn [payload gv_added gv_updated gv_removed].
  destruct (rv_added raw), (rv_updated raw), (rv_removed raw); cbn; split;
    intros; congruence.
Qed.

(** X18. With the state present, no [vars] and the variables given by
    [variables], every one with its [value] key as the argument spec
    provides it, a variable whose value is [None] makes [main] fail with
    the validation message, and no call to the service has been made,
    neither the authentication nor a listing. *)
Theorem missing_value_fails_before_any_call module (w : World) :
  params_state module = "present" ->
  params_vars module = ∅ ->
  Forall (fun x : dict => is_Some (x !! "value")) (params_variables module) ->
  Exists (fun x : dict => x !! "value" = Some PNone) (params_variables module) ->
  main frv module w
  = Out (inl (FailJson "value parameter is required in state present")) w [].
Proof.
  intros Hstate Hvars Hkeys Hmissing. rewrite main_eq.
  rewrite decide_True by assumption. unfold validation.
  rewrite decide_True by assumption.
  rewrite (any_value_is_None_found _ Hkeys Hmissing). reflexivity.
Qed.

(** C9. The listing fetches page 1, then the next page as long as the
    page fetched is not empty, and returns the pages fetched before the
    empty one, put together: for some [n], the pages 1 to [n] are not
    empty, page [n + 1] is empty, the calls are the listings of the pages
    1 to [n + 1] and the result is the concatenation of the pages 1 to
    [n]. [native_python_main] starts with these calls, before anything it
    does with the requested variables. *)
Theorem listing_aggregates_pages (w : World) :
  exists n,
    Forall (fun p => p <> []) (take n (variables_pages w))
    /\ nth n (variables_pages w) [] = []
    /\ list_all_instance_variables w
       = Out (inr (concat (take n (variables_pages w)))) w (map EvList (seq 1 (S n)))
    /\ forall module purge requested state,
         exists rest,
           calls (native_python_main frv module purge requested state w)
           = map EvList (seq 1 (S n)) ++ rest.
Proof.
  destruct (leading_pages_prefix (variables_pages w)) as (Hpre & Hall & Hnth).
  exists (length (leading_pages (variables_pages w))).
  rewrite <- Hpre. repeat split; try assumption.
  - apply list_all_spec.
  - intros module purge requested state. rewrite native_eq.
    fold (list_calls w).
    destruct (for_each normalize_item requested) as [e | req]; [eexists; reflexivity |].
    cbn zeta. destruct (result (state_block _ _ _ _ _ _ _ _)); eexists; reflexivity.
Qed.

(** C10. [compare] returns three empty lists for a state other than
    present, and in check mode with the state absent the added, updated
    and untouched lists of the result of [main] are empty. *)
Theorem absent_check_mode_lists_empty (req existing : list dict) (state : string)
    module (w : World) changed gv :
  state <> "present" ->
  check_mode module = true ->
  params_state module = "absent" ->
  result (main frv module w) = inr (changed, gv) ->
  compare req existing state = ([], [], [])
  /\ gv_added gv = [] /\ gv_updated gv = [] /\ gv_untouched gv = [].
Proof.
  intros Hstate Hcheck Habsent H. split; [apply compare_other_state, Hstate |].
  apply main_result in H as (raw & before & after & H & ->).
  apply native_result in H as (req' & rv0 & _ & _ & H).
  unfold finish in H. rewrite Hcheck, Habsent in H.
  rewrite compare_other_state in H by discriminate.
  injection H as _ <-. unfold payload. rewrite Hcheck. cbn. auto.
Qed.

End Claims.

(** ** The claims on the reference service *)

Module RefClaims.
Import RefStore RefStoreFacts.

(** C3. With the state present and purge, in a real run on the reference
    service: after the apply phase, which leaves the service in [w1], the
    variables are listed again, the removed are the listed variables
    whose (key, scope) pair is not the pair of a requested variable, each
    of them is deleted, and the pairs that the service holds in the end
    are the pairs of the requested variables. *)
Theorem purge_leaves_requested_pairs module (requested : list dict) (w : store) :
  check_mode module = false ->
  Forall wf_requested requested ->
  store_ok w ->
  exists req t a u w1 w2 change rv c,
    for_each normalize_item requested = inr req
    /\ apply_run (filter (fun x => x ∉ filter_returned_variables w) req) w t a u w1
    /\ native_python_main filter_returned_variables module true requested "present" w
       = Out (inr (change, rv, w, w2)) w2 c
    /\ rv_removed rv
       = filter (fun x => pair_of x ∉ map pair_of req) (filter_returned_variables w1)
    /\ w2 = filter (fun e => pair_of e ∈ map pair_of req) w1
    /\ c = list_calls w ++ list_calls w
             ++ (t ++ list_calls w1
                   ++ map (fun x => EvDelete (dict_get x "key")
                                      (dict_get x "environment_scope"))
                          (rv_removed rv))
             ++ list_calls w2
    /\ forall p, p ∈ map pair_of w2 <-> p ∈ map pair_of req.
Proof.
  intros Hreal Hwf Hok.
  destruct (for_each_normal requested Hwf) as (req & Hreq & Hn).
  destruct (ref_native_present module true requested req w Hreal Hreq Hn Hok)
    as (t & a & u & Hrun & Hnat).
  cbn zeta in Hnat.
  exists req, t, a, u. do 5 eexists.
  split; [exact Hreq |]. split; [exact Hrun |]. split; [exact Hnat |].
  cbn [rv_removed]. split; [apply purge_remove; assumption |].
  split; [reflexivity |]. split; [reflexivity |].
  intros p. apply purge_pairs; assumption.
Qed.

(** C5, amended. When any two of the requested variables, normalized,
    that have the same (key, scope) pair are the same in every attribute (a
    variable may be requested more than once), a real run of the state
    present on the reference service succeeds, and a second run from the
    remote state it leaves gives that remote state again and reports no
    change, with nothing added, updated or removed. *)
Theorem rerun_unchanged_same_pair_same_variable module (purge : bool)
    (requested req : list dict) (w : store) :
  check_mode module = false ->
  Forall wf_requested requested ->
  for_each normalize_item requested = inr req ->
  same_pair_same_variable req ->
  store_ok w ->
  (exists r1 w1 c1,
     native_python_main filter_returned_variables module purge requested "present" w
     = Out (inr r1) w1 c1)
  /\ rerun_unchanged module purge requested w.
Proof.
  intros Hreal Hwf Hreq Hnd Hok.
  destruct (for_each_normal requested Hwf) as (req' & Hreq' & Hn).
  rewrite Hreq in Hreq'. injection Hreq' as <-.
  destruct (ref_native_present module purge requested req w Hreal Hreq Hn Hok)
    as (t & a & u & Hrun & Hnat).
  cbn zeta in Hnat.
  set (w1 := puts (filter (fun x => x ∉ filter_returned_variables w) req) w) in *.
  split; [do 3 eexists; exact Hnat |].
  unfold rerun_unchanged. cbn zeta. rewrite Hnat. cbn [result final].
  intros r1 _.
  assert (Hok1 : store_ok w1) by (apply store_ok_puts, Hok).
  pose proof (applied_holds_same req w Hn) as Hheld1. fold w1 in Hheld1.
  destruct purge.
  - set (w2 := filter (fun e => pair_of e ∈ map pair_of req) w1) in *.
    assert (Hok2 : store_ok w2) by apply (store_ok_filter _ w1 Hok1).
    assert (Hheld : forall d, d ∈ req -> d ∈ filter_returned_variables w2).
    { intros d Hd. pose proof (Hheld1 d Hnd Hd) as Hd1.
      apply filter_returned_variables_elem in Hd1 as (e & He & ->).
      apply filter_returned_variables_elem. exists e. split; [| reflexivity].
      apply list_elem_of_filter. split; [| assumption].
      rewrite <- pair_of_known. apply list_elem_of_fmap. eauto. }
    destruct (ref_native_present module true requested req w2 Hreal Hreq Hn Hok2)
      as (t2 & a2 & u2 & Hrun2 & Hnat2).
    cbn zeta in Hnat2.
    rewrite (filter_none _ req) in Hrun2, Hnat2
      by (intros d Hd Hnot; apply Hnot, Hheld, Hd).
    cbn [puts fold_left] in Hrun2, Hnat2. inversion Hrun2; subst.
    rewrite (filter_none _ (filter_returned_variables w2)) in Hnat2.
    2:{ intros x Hx Hnot. apply Hnot.
        apply filter_returned_variables_elem in Hx as (e & He & ->).
        apply list_elem_of_filter in He as [Hp He].
        apply (applied_member req w Hn Hok e He). assumption. }
    rewrite (filter_all _ w2) in Hnat2.
    2:{ intros e He. apply list_elem_of_filter in He as [Hp _]. assumption. }
    cbn [app length] in Hnat2. rewrite Hnat2. cbn [result final]. eauto.
  - destruct (ref_native_present module false requested req w1 Hreal Hreq Hn Hok1)
      as (t2 & a2 & u2 & Hrun2 & Hnat2).
    cbn zeta in Hnat2.
    rewrite (filter_none _ req) in Hrun2, Hnat2
      by (intros d Hd Hnot; apply Hnot, Hheld1; assumption).
    cbn [puts fold_left] in Hrun2, Hnat2. inversion Hrun2; subst.
    cbn [app length] in Hnat2. rewrite Hnat2. cbn [result final]. eauto.
Qed.

End RefClaims.

(** ** Concrete runs on the reference service *)

Module Runs.
Import RefStore.

(** Decide a closed proposition by evaluation. *)
Ltac decide_by_eval := apply (bool_decide_unpack _); vm_compute; exact I.

(** C5, as stated, fails: requested twice with two values, a variable is
    added and then updated by the first run, and updated twice by the
    second, which reports a change. *)
Lemma rerun_changes_with_duplicate_pair :
  ¬ rerun_unchanged
      (module_of false false
         [requested_variable "FOO" "1"; requested_variable "FOO" "2"] "present")
      false [requested_variable "FOO" "1"; requested_variable "FOO" "2"] [].
Proof.
  intros H.
  destruct (H (true,
               ReturnValue [remote_variable "FOO" "1" false]
                           [remote_variable "FOO" "2" false] [] [],
               [], [remote_variable "FOO" "2" false]))
    as (untouched & before & after & H2 & _).
  { decide_by_eval. }
  apply (f_equal change_of) in H2. vm_compute in H2. discriminate H2.
Qed.

(** C2, the defect: in check mode, a requested variable whose key and
    scope are those of a remote variable and whose value differs is
    reported as added, and the updated list is empty: [compare] looks the
    variable up under ['name'], a key that [native_python_main] has
    renamed to ['key'] before the call. *)
Theorem check_mode_reports_changed_variable_as_added :
  let remote := [remote_variable "FOO" "1" false] in
  let module := module_of true false [requested_variable "FOO" "2"] "present" in
  for_each normalize_item (params_variables module) = inr [remote_variable "FOO" "2" false]
  /\ pair_of (remote_variable "FOO" "2" false) ∈ map pair_of remote
  /\ main filter_returned_variables module remote
     = Out (inr (true, GroupVariable [PStr "FOO"] [] [] [])) remote
           [EvAuth; EvList 1; EvList 2; EvList 1; EvList 2; EvList 1; EvList 2].
Proof.
  cbn zeta. split; [decide_by_eval |].
  split; [decide_by_eval | decide_by_eval].
Qed.

(** C4, the defect: with the state absent and no purge, a requested
    variable whose key and scope are those of a remote variable is not
    deleted when the remote variable is masked and the requested one is
    not: the dictionaries compared still hold [masked] and [protected]. *)
Theorem absent_keeps_variable_with_other_masked :
  let remote := [remote_variable "FOO" "1" true] in
  let module := module_of false false [requested_variable "FOO" "1"] "absent" in
  for_each normalize_item (params_variables module) = inr [remote_variable "FOO" "1" false]
  /\ pair_of (remote_variable "FOO" "1" false) ∈ map pair_of remote
  /\ main filter_returned_variables module remote
     = Out (inr (false, GroupVariable [] [] [] [PNone])) remote
           [EvAuth; EvList 1; EvList 2; EvList 1; EvList 2; EvList 1; EvList 2].
Proof.
  cbn zeta. split; [decide_by_eval |].
  split; [decide_by_eval | decide_by_eval].
Qed.

(** C7, the defect: in a real run the untouched list of the result holds
    [None] for a variable that is the same before and after, not its key:
    [main] reads ['name'] from the attributes of the remote variables,
    which have ['key']. *)
Theorem real_run_untouched_is_None :
  let remote := [remote_variable "FOO" "1" false] in
  let module := module_of false false [requested_variable "FOO" "1"] "present" in
  main filter_returned_variables module remote
  = Out (inr (false, GroupVariable [] [] [] [PNone])) remote
        [EvAuth; EvList 1; EvList 2; EvList 1; EvList 2; EvList 1; EvList 2].
Proof. cbn zeta. decide_by_eval. Qed.

(** C8, the defect: with the state present, a variable without a value
    that is given through [vars] does not make [main] fail with the
    validation message: [main] ends on a [NameError], since
    [vars_to_variables], which it calls on a [vars] that is not empty, is
    bound nowhere in the module. The same variable given through
    [variables] does fail with the validation message. Neither run makes a
    call to the service. *)
Theorem vars_without_value_raises_NameError :
  let w := [remote_variable "FOO" "0" false] in
  let by_vars :=
    {| check_mode := false; params_purge := false;
       params_vars := <["FOO" := PNone]> ∅;
       params_variables := []; params_state := "present" |} in
  let by_variables :=
    module_of false false [requested_variable_no_value "FOO"] "present" in
  main filter_returned_variables by_vars w
  = Out (inl (NameError "vars_to_variables")) w []
  /\ main filter_returned_variables by_variables w
     = Out (inl (FailJson "value parameter is required in state present")) w [].
Proof. cbn zeta. split; decide_by_eval. Qed.

(** *** The theorems at concrete runs *)

(** C1 at a run that updates FOO, whose create fails, and adds BAR. *)
Lemma present_applies_create_then_update_run :
  let foo := remote_variable "FOO" "2" false in
  let bar := remote_variable "BAR" "x" false in
  let requested := [requested_variable "FOO" "2"; requested_variable "BAR" "x"] in
  let req := [foo; bar] in
  let module := module_of false false requested "present" in
  let w := [remote_variable "FOO" "1" false] in
  let t := [EvCreate (create_body foo);
            EvDelete (dict_get foo "key") (dict_get foo "environment_scope");
            EvCreate (create_body foo);
            EvCreate (create_body bar)] in
  let out := native_python_main filter_returned_variables module false requested
               "present" w in
  let cands := filter (fun x => x ∉ filter_returned_variables (remote_variables w)) req in
  check_mode module = false
  /\ for_each normalize_item requested = inr req
  /\ apply_run cands w t [bar] [foo] [foo; bar]
  /\ (let rv1 := ReturnValue [bar] [foo] [] [] in
      let o : outcome store return_dict := Out (inr rv1) [foo; bar] [] in
      out =
      match result o with
      | inl e =>
          Out (inl e) (final o)
              (list_calls w ++ list_calls w ++ t ++ [] ++ calls o)
      | inr rv =>
          Out (inr ((0 <? length (rv_added rv ++ rv_removed rv ++ rv_updated rv))%nat,
                    rv, remote_variables w, remote_variables (final o)))
              (final o)
              (list_calls w ++ list_calls w ++ t ++ [] ++ calls o
                 ++ list_calls (final o))
      end)
  /\ (forall change rv before after,
        result out = inr (change, rv, before, after) ->
        exists t' w1 rest,
          apply_run cands w t' (rv_added rv) (rv_updated rv) w1
          /\ calls out = list_calls w ++ list_calls w ++ t' ++ rest).
Proof.
  cbn zeta.
  assert (Hreq : for_each normalize_item
                   [requested_variable "FOO" "2"; requested_variable "BAR" "x"]
                 = inr [remote_variable "FOO" "2" false; remote_variable "BAR" "x" false])
    by decide_by_eval.
  assert (Hrun : apply_run
            (filter (fun x => x ∉ filter_returned_variables
                                    (remote_variables [remote_variable "FOO" "1" false]))
                    [remote_variable "FOO" "2" false; remote_variable "BAR" "x" false])
            [remote_variable "FOO" "1" false]
            [EvCreate (create_body (remote_variable "FOO" "2" false));
             EvDelete (dict_get (remote_variable "FOO" "2" false) "key")
                      (dict_get (remote_variable "FOO" "2" false) "environment_scope");
             EvCreate (create_body (remote_variable "FOO" "2" false));
             EvCreate (create_body (remote_variable "BAR" "x" false))]
            [remote_variable "BAR" "x" false] [remote_variable "FOO" "2" false]
            [remote_variable "FOO" "2" false; remote_variable "BAR" "x" false]).
  { assert (Hc : filter (fun x => x ∉ filter_returned_variables
                                         (remote_variables [remote_variable "FOO" "1" false]))
                   [remote_variable "FOO" "2" false; remote_variable "BAR" "x" false]
                 = [remote_variable "FOO" "2" false; remote_variable "BAR" "x" false])
      by decide_by_eval.
    rewrite Hc.
    eapply (apply_updated _ _ _ [] [remote_variable "FOO" "2" false]);
      [decide_by_eval | decide_by_eval | decide_by_eval |].
    eapply apply_added; [| apply apply_done]. decide_by_eval. }
  destruct (present_applies_create_then_update filter_returned_variables
              (module_of false false
                 [requested_variable "FOO" "2"; requested_variable "BAR" "x"] "present")
              false
              [requested_variable "FOO" "2"; requested_variable "BAR" "x"]
              [remote_variable "FOO" "2" false; remote_variable "BAR" "x" false]
              [remote_variable "FOO" "1" false] eq_refl Hreq) as [Hforth Hback].
  split; [reflexivity |]. split; [exact Hreq |]. split; [exact Hrun |].
  split; [exact (Hforth _ _ _ _ Hrun) | exact Hback].
Defined.

(** C3 at a run that updates FOO and purges BAR. *)
Lemma purge_leaves_requested_pairs_run :
  let module := module_of false true [requested_variable "FOO" "2"] "present" in
  let requested := [requested_variable "FOO" "2"] in
  let w := [remote_variable "FOO" "1" false; remote_variable "BAR" "1" false] in
  check_mode module = false /\ Forall wf_requested requested /\ store_ok w
  /\ exists req t a u w1 w2 change rv c,
    for_each normalize_item requested = inr req
    /\ apply_run (filter (fun x => x ∉ filter_returned_variables w) req) w t a u w1
    /\ native_python_main filter_returned_variables module true requested "present" w
       = Out (inr (change, rv, w, w2)) w2 c
    /\ rv_removed rv
       = filter (fun x => pair_of x ∉ map pair_of req) (filter_returned_variables w1)
    /\ w2 = filter (fun e => pair_of e ∈ map pair_of req) w1
    /\ c = list_calls w ++ list_calls w
             ++ (t ++ list_calls w1
                   ++ map (fun x => EvDelete (dict_get x "key")
                                      (dict_get x "environment_scope"))
                          (rv_removed rv))
             ++ list_calls w2
    /\ forall p, p ∈ map pair_of w2 <-> p ∈ map pair_of req.
Proof.
  cbn zeta. split; [reflexivity |]. split; [decide_by_eval |]. split; [decide_by_eval |].
  apply (RefClaims.purge_leaves_requested_pairs
           (module_of false true [requested_variable "FOO" "2"] "present")
           [requested_variable "FOO" "2"]
           [remote_variable "FOO" "1" false; remote_variable "BAR" "1" false]);
    [reflexivity | decide_by_eval | decide_by_eval].
Defined.

(** C5, amended, at a run that updates FOO, requested twice with the same
    value, adds BAR and purges BAZ. *)
Lemma rerun_unchanged_same_pair_same_variable_run :
  let requested := [requested_variable "FOO" "2"; requested_variable "BAR" "x";
                    requested_variable "FOO" "2"] in
  let req := [remote_variable "FOO" "2" false; remote_variable "BAR" "x" false;
              remote_variable "FOO" "2" false] in
  let module := module_of false true requested "present" in
  let w := [remote_variable "FOO" "1" false; remote_variable "BAZ" "1" true] in
  check_mode module = false
  /\ Forall wf_requested requested
  /\ for_each normalize_item requested = inr req
  /\ same_pair_same_variable req
  /\ store_ok w
  /\ (exists r1 w1 c1,
        native_python_main filter_returned_variables module true requested "present" w
        = Out (inr r1) w1 c1)
  /\ rerun_unchanged module true requested w.
Proof.
  cbn zeta. split; [reflexivity |]. split; [decide_by_eval |].
  split; [decide_by_eval |]. split; [decide_by_eval |].
  split; [decide_by_eval |].
  apply (RefClaims.rerun_unchanged_same_pair_same_variable
           (module_of false true
              [requested_variable "FOO" "2"; requested_variable "BAR" "x";
               requested_variable "FOO" "2"] "present")
           true
           [requested_variable "FOO" "2"; requested_variable "BAR" "x";
            requested_variable "FOO" "2"]
           [remote_variable "FOO" "2" false; remote_variable "BAR" "x" false;
            remote_variable "FOO" "2" false]
           [remote_variable "FOO" "1" false; remote_variable "BAZ" "1" true]);
    [reflexivity | decide_by_eval | decide_by_eval
     | decide_by_eval | decide_by_eval].
Defined.

(** C6 at a run that adds BAR. *)
Lemma changed_iff_lists_nonempty_run :
  let module := module_of false false [requested_variable "BAR" "x"] "present" in
  let gv := GroupVariable [PStr "BAR"] [] [] [] in
  result (main filter_returned_variables module ([] : store)) = inr (true, gv)
  /\ (true = true <-> gv_added gv ++ gv_updated gv ++ gv_removed gv <> []).
Proof.
  cbn zeta. split; [decide_by_eval |].
  apply (changed_iff_lists_nonempty filter_returned_variables
           (module_of false false [requested_variable "BAR" "x"] "present")
           ([] : store) true (GroupVariable [PStr "BAR"] [] [] [])).
  decide_by_eval.
Defined.

(** X18 at a run with a second variable that has no value. *)
Lemma missing_value_fails_before_any_call_run :
  let module :=
    module_of false false
      [requested_variable "FOO" "1"; requested_variable_no_value "BAR"] "present" in
  let w := [remote_variable "FOO" "0" false] in
  params_state module = "present"
  /\ params_vars module = ∅
  /\ Forall (fun x : dict => is_Some (x !! "value")) (params_variables module)
  /\ Exists (fun x : dict => x !! "value" = Some PNone) (params_variables module)
  /\ main filter_returned_variables module w
     = Out (inl (FailJson "value parameter is required in state present")) w [].
Proof.
  cbn zeta. split; [reflexivity |]. split; [reflexivity |].
  split; [decide_by_eval |]. split; [decide_by_eval |].
  apply (missing_value_fails_before_any_call filter_returned_variables
           (module_of false false
              [requested_variable "FOO" "1"; requested_variable_no_value "BAR"]
              "present")
           [remote_variable "FOO" "0" false]);
    [reflexivity | reflexivity | decide_by_eval | decide_by_eval].
Defined.

(** C10 at a run of the check mode that would remove FOO. *)
Lemma absent_check_mode_lists_empty_run :
  let module := module_of true false [requested_variable "FOO" "1"] "absent" in
  let w := [remote_variable "FOO" "1" false] in
  let gv := GroupVariable [] [] [PStr "FOO"] [] in
  "absent" <> "present"
  /\ check_mode module = true
  /\ params_state module = "absent"
  /\ result (main filter_returned_variables module w) = inr (true, gv)
  /\ compare (params_variables module) w "absent" = ([], [], [])
  /\ gv_added gv = [] /\ gv_updated gv = [] /\ gv_untouched gv = [].
Proof.
  cbn zeta. split; [discriminate |]. split; [reflexivity |]. split; [reflexivity |].
  split; [decide_by_eval |].
  apply (absent_check_mode_lists_empty filter_returned_variables
           [requested_variable "FOO" "1"] [remote_variable "FOO" "1" false] "absent"
           (module_of true false [requested_variable "FOO" "1"] "absent")
           [remote_variable "FOO" "1" false] true
           (GroupVariable [] [] [PStr "FOO"] []));
    [discriminate | reflexivity | reflexivity | decide_by_eval].
Defined.

End Runs.

(** ** Further properties: [compare] and the first loop *)

Lemma key_scope_inj k s k' s' :
  key_scope k s = key_scope k' s' <-> k = k' /\ s = s'.
Proof.
  split; [| intros [-> ->]; reflexivity].
  intros H. split.
  - apply (f_equal (fun d : dict => d !! "key")) in H.
    rewrite !key_scope_key in H. congruence.
  - apply (f_equal (fun d : dict => d !! "environment_scope")) in H.
    unfold key_scope in H. cbv beta in H.
    rewrite !(lookup_insert_ne _ "key") in H by discriminate.
    rewrite !lookup_insert_eq in H. congruence.
Qed.

Lemma key_scope_match var (existing : list dict) :
  key_scope (dict_get var "name") (dict_get var "environment_scope")
    ∈ map (fun item => key_scope (dict_get item "key") (dict_get item "environment_scope"))
          existing
  <-> name_scope_match var existing.
Proof.
  unfold name_scope_match. rewrite Exists_exists, list_elem_of_fmap.
  split; intros (e & H1 & H2).
  - exists e. split; [assumption |]. apply key_scope_inj in H1. destruct H1. auto.
  - exists e. split; [| assumption]. apply key_scope_inj. destruct H2. auto.
Qed.

(** X1. With the state present, [compare] puts every requested variable in
    exactly one list and keeps the order: untouched are the variables equal
    to a remote one, updated the others that have the name and scope of a
    remote one, added the rest. *)
Theorem compare_classifies (requested existing : list dict) :
  compare requested existing "present"
  = (filter (fun var => var ∈ existing) requested,
     filter (fun var => (var ∉ existing) /\ name_scope_match var existing) requested,
     filter (fun var => (var ∉ existing) /\ ¬ name_scope_match var existing) requested).
Proof.
  unfold compare. rewrite decide_True by reflexivity.
  set (ks := map _ existing).
  assert (Hfold : forall l untouched updated added,
    fold_left (compare_step existing ks) l (untouched, updated, added)
    = (untouched ++ filter (fun var => var ∈ existing) l,
       updated ++ filter (fun var => (var ∉ existing) /\ name_scope_match var existing) l,
       added ++ filter (fun var => (var ∉ existing) /\ ¬ name_scope_match var existing) l)).
  { induction l as [| var l IH]; intros untouched updated added.
    - cbn. rewrite !app_nil_r. reflexivity.
    - cbn [fold_left]. unfold compare_step at 2. rewrite !filter_cons.
      destruct (decide (var ∈ existing)) as [Hin | Hin].
      + rewrite IH. rewrite !decide_False by tauto. rewrite <- app_assoc. reflexivity.
      + destruct (decide (key_scope _ _ ∈ ks)) as [Hm | Hm];
          rewrite IH; subst ks; rewrite key_scope_match in Hm.
        * rewrite decide_True by tauto. rewrite decide_False by tauto.
          rewrite <- app_assoc. reflexivity.
        * rewrite decide_False by tauto. rewrite decide_True by tauto.
          rewrite <- app_assoc. reflexivity. }
  apply Hfold.
Qed.

(** X2. The first loop of [native_python_main] on a variable that has a
    name: the name moves to ['key'], the value becomes its [str] (so a
    value that is [None] or missing becomes the string ['None']), the four
    other attributes get their default when they are [None] or missing and
    keep their value otherwise, and any other key is left as it is. *)
Theorem normalize_item_defaults (item : dict) (name : pyval) :
  item !! "name" = Some name ->
  exists d,
    normalize_item item = inr d
    /\ d !! "name" = None
    /\ d !! "key" = Some name
    /\ d !! "value" = Some (PStr (py_str (dict_get item "value")))
    /\ (forall k v,
          (k, v) ∈ [("protected", PBool false); ("masked", PBool false);
                    ("environment_scope", PStr "*"); ("variable_type", PStr "env_var")] ->
          d !! k = Some (if decide (dict_get item k = PNone) then v else dict_get item k))
    /\ (forall k,
          k ∉ ["name"; "key"; "value"; "protected"; "masked";
               "environment_scope"; "variable_type"] ->
          d !! k = item !! k).
Proof.
  intros Hname. unfold normalize_item, dict_pop. rewrite Hname.
  eexists. split; [reflexivity |].
  assert (Hset : forall (m : dict) k v k',
    set_default m k v !! k'
    = if decide (k' = k)
      then Some (if decide (dict_get m k = PNone) then v else dict_get m k)
      else m !! k').
  { intros m k v k'. unfold set_default.
    destruct (decide (k' = k)) as [-> | Hne].
    - destruct (decide (dict_get m k = PNone)) as [Hn | Hn].
      + apply lookup_insert_eq.
      + unfold dict_get in *. destruct (m !! k); [reflexivity | done].
    - destruct (decide (dict_get m k = PNone)); [| reflexivity].
      apply lookup_insert_ne. congruence. }
  assert (Hget : forall (m : dict) k v k', k' <> k ->
    dict_get (set_default m k v) k' = dict_get m k').
  { intros m k v k' Hne. unfold dict_get. rewrite Hset.
    rewrite decide_False by assumption. reflexivity. }
  assert (Hbase : forall k, k <> "name" -> k <> "key" -> k <> "value" ->
    dict_get (<["value" := PStr (py_str (dict_get (<["key" := name]> (delete "name" item))
                                            "value"))]>
                (<["key" := name]> (delete "name" item))) k = dict_get item k).
  { intros k H1 H2 H3. unfold dict_get.
    rewrite !lookup_insert_ne by congruence. rewrite lookup_delete_ne by congruence.
    reflexivity. }
  assert (Hvalue : dict_get (<["key" := name]> (delete "name" item)) "value"
                   = dict_get item "value").
  { unfold dict_get. rewrite lookup_insert_ne by discriminate.
    rewrite lookup_delete_ne by discriminate. reflexivity. }
  rewrite Hvalue.
  repeat split.
  - rewrite !Hset. repeat (rewrite decide_False by discriminate).
    rewrite !lookup_insert_ne by discriminate. apply lookup_delete_eq.
  - rewrite !Hset. repeat (rewrite decide_False by discriminate).
    rewrite lookup_insert_ne by discriminate. apply lookup_insert_eq.
  - rewrite !Hset. repeat (rewrite decide_False by discriminate).
    apply lookup_insert_eq.
  - intros k v Hk. rewrite !elem_of_cons, elem_of_nil in Hk.
    destruct Hk as [[= -> ->] | [[= -> ->] | [[= -> ->] | [[= -> ->] | []]]]];
      rewrite !Hset; repeat (rewrite decide_False by discriminate);
      rewrite decide_True by reflexivity;
      repeat (rewrite Hget by discriminate);
      rewrite <- Hvalue, Hbase by discriminate; reflexivity.
  - intros k Hk. rewrite !not_elem_of_cons in Hk.
    destruct Hk as (H1 & H2 & H3 & H4 & H5 & H6 & H7 & _).
    rewrite !Hset. repeat (rewrite decide_False by assumption).
    rewrite !lookup_insert_ne by congruence. apply lookup_delete_ne. congruence.
Qed.

Lemma normalize_item_error item e :
  normalize_item item = inl e -> e = KeyError "name" /\ item !! "name" = None.
Proof.
  unfold normalize_item, dict_pop. destruct (item !! "name"); [discriminate |].
  intros [= <-]. auto.
Qed.

Lemma for_each_missing_name (requested : list dict) :
  Exists (fun item : dict => item !! "name" = None) requested ->
  for_each normalize_item requested = inl (KeyError "name").
Proof.
  induction requested as [| item requested IH]; intros Hex; [inversion Hex |].
  cbn [for_each]. destruct (normalize_item item) as [e | d] eqn:E.
  - apply normalize_item_error in E as [-> _]. reflexivity.
  - rewrite IH; [reflexivity |]. apply Exists_cons in Hex as [Hm | ?]; [| assumption].
    unfold normalize_item, dict_pop in E. rewrite Hm in E. discriminate.
Qed.

Lemma normalize_item_no_name item d :
  normalize_item item = inr d -> d !! "name" = None.
Proof.
  unfold normalize_item, dict_pop. destruct (item !! "name") as [name |]; [| discriminate].
  intros [= <-]. apply eq_None_not_Some.
  rewrite !RefStoreFacts.default_is_Some, !lookup_insert_is_Some, lookup_delete_is_Some.
  intros H.
  repeat match goal with
         | H : _ \/ _ |- _ => destruct H as [H | H]
         | H : _ /\ _ |- _ => destruct H as [? H]
         end; congruence.
Qed.

Lemma for_each_normalize_no_name (requested : list dict) : forall req,
  for_each normalize_item requested = inr req ->
  Forall (fun d : dict => d !! "name" = None) req.
Proof.
  induction requested as [| item requested IH]; intros req H; cbn in H.
  - injection H as <-. constructor.
  - destruct (normalize_item item) as [e | d] eqn:E; [discriminate |].
    destruct (for_each normalize_item requested) as [e | req']; [discriminate |].
    injection H as <-. constructor; [eapply normalize_item_no_name, E | auto].
Qed.

Lemma count_app kind (c1 c2 : list event) :
  count kind (c1 ++ c2) = count kind c1 + count kind c2.
Proof. unfold count. rewrite List.filter_app, length_app. reflexivity. Qed.

Lemma count_list_calls {World} {gl : GitlabInstance World} kind (w : World) :
  (forall page, kind (EvList page) = false) -> count kind (list_calls w) = 0.
Proof.
  intros Hk. unfold count, list_calls.
  induction (seq 1 _) as [| n l IH]; [reflexivity |]. cbn. rewrite Hk. exact IH.
Qed.

Lemma apply_run_counts {World} {gl : GitlabInstance World} cs (w : World) t a u w1 :
  apply_run cs w t a u w1 ->
  count is_delete t = length u /\ count is_create t = length a + 2 * length u.
Proof.
  induction 1 as [| x xs w w1 w2 t a u _ _ [IH1 IH2]
                  | x xs w w1 w2 w3 t a u _ _ _ _ [IH1 IH2]];
    unfold count in *; cbn; [auto | |]; rewrite ?IH1, ?IH2; split; lia.
Qed.

Section MoreProperties.

Context {World : Type} {gl : GitlabInstance World}.
Variable frv : list dict -> list dict.

(** X3. A requested variable without a name ends [native_python_main] on
    the [KeyError] of ['name'] after the two listings: nothing has been
    compared, created or deleted, whatever the state and the mode. *)
Theorem missing_name_raises_KeyError module purge (requested : list dict) state
    (w : World) :
  Exists (fun item : dict => item !! "name" = None) requested ->
  native_python_main frv module purge requested state w
  = Out (inl (KeyError "name")) w (list_calls w ++ list_calls w).
Proof.
  intros H. rewrite native_eq, (for_each_missing_name requested H). reflexivity.
Qed.

(** X4. What check mode reports: the untouched, updated and added lists
    are those of [compare] on the normalized requested variables and the
    filtered remote ones; the before and after snapshots are the same
    listing; with the state present the removed list is empty without
    purge, and with purge it is the remote variables that are not among
    the requested ones, as they are before anything is applied; with the
    state absent it is the stripped requested variables that are among the
    stripped remote ones, or every stripped remote variable with purge. *)
Theorem check_mode_report module purge (requested : list dict) state (w : World)
    change rv before after :
  check_mode module = true ->
  result (native_python_main frv module purge requested state w)
    = inr (change, rv, before, after) ->
  exists req,
    for_each normalize_item requested = inr req
    /\ (rv_untouched rv, rv_updated rv, rv_added rv)
       = compare req (frv (remote_variables w)) state
    /\ before = remote_variables w
    /\ after = remote_variables w
    /\ (state = "present" ->
        rv_removed rv
        = if purge then filter (fun x => x ∉ req) (frv (remote_variables w)) else [])
    /\ (state = "absent" ->
        exists existing' req',
          for_each strip_item (frv (remote_variables w)) = inr existing'
          /\ for_each strip_item req = inr req'
          /\ rv_removed rv
             = if purge then existing' else filter (fun x => x ∈ existing') req').
Proof.
  intros Hcheck H. rewrite native_eq in H.
  destruct (for_each normalize_item requested) as [e | req]; [discriminate |].
  exists req. split; [reflexivity |]. cbn zeta in H.
  set (existing := frv (remote_variables w)) in *.
  destruct (state_block_check frv module Hcheck purge state req existing
              (ReturnValue [] [] [] []) w) as [Hw _].
  destruct (state_block frv module purge state req existing (ReturnValue [] [] [] []) w)
    as [[e | rv0] w1 c1] eqn:Eb; cbn [result final calls] in *; [discriminate |].
  subst w1. unfold finish in H. rewrite Hcheck in H.
  destruct (compare req existing state) as [[untouched updated] added].
  injection H as <- <- <- <-. cbn [rv_untouched rv_updated rv_added rv_removed].
  split; [reflexivity |]. split; [reflexivity |]. split; [reflexivity |].
  unfold state_block in Eb. split.
  - intros ->. rewrite decide_True in Eb by reflexivity. unfold present_block in Eb.
    rewrite (bind_ok _ _ _ _ _ _ (apply_loop_check module Hcheck _ _ w)) in Eb.
    destruct purge.
    + rewrite (bind_ok _ _ _ _ _ _ (list_all_spec w)) in Eb.
      rewrite (delete_loop_check module Hcheck) in Eb.
      cbn [result final calls rv_removed app] in Eb. injection Eb as <- _. reflexivity.
    + injection Eb as <- _. reflexivity.
  - intros ->. rewrite decide_False in Eb by discriminate.
    rewrite decide_True in Eb by reflexivity. unfold absent_block in Eb.
    destruct (for_each strip_item existing) as [e | existing']; cbn [lift] in Eb;
      [rewrite bind_raise_l in Eb; discriminate |].
    rewrite bind_ret_l in Eb.
    destruct (for_each strip_item req) as [e | req']; cbn [lift] in Eb;
      [rewrite bind_raise_l in Eb; discriminate |].
    rewrite bind_ret_l in Eb.
    exists existing', req'. split; [reflexivity |]. split; [reflexivity |].
    destruct purge; cbn [negb] in Eb; rewrite (delete_loop_check module Hcheck) in Eb;
      injection Eb as <- _; reflexivity.
Qed.

(** X5. In check mode the updated list of the result of [main] is empty as
    soon as every filtered remote variable has a key: [compare] looks the
    requested variables up by ['name'], which the first loop of
    [native_python_main] has removed from every one of them. *)
Theorem check_mode_never_updated module (w : World) changed gv :
  check_mode module = true ->
  Forall (fun e : dict => dict_get e "key" <> PNone) (frv (remote_variables w)) ->
  result (main frv module w) = inr (changed, gv) ->
  gv_updated gv = [].
Proof.
  intros Hcheck Hkeys H.
  apply main_result in H as (raw & before & after & H & ->).
  apply native_result in H as (req & rv0 & Hreq & _ & H).
  unfold finish in H. rewrite Hcheck in H.
  pose proof (compare_updated_empty req (frv (remote_variables w))
                (for_each_normalize_no_name _ _ Hreq) Hkeys) as Hupd.
  destruct (decide (params_state module = "present")) as [Hs | Hne].
  - rewrite Hs in H.
    destruct (compare req _ "present") as [[untouched updated] added].
    cbn in Hupd. subst updated. injection H as _ <-. reflexivity.
  - rewrite compare_other_state in H by assumption. injection H as _ <-. reflexivity.
Qed.

(** X8. Without purge, a real run with the state present deletes only to
    update: the removed list is empty, there are as many deletes as updated
    variables, and one create for every added variable and two for every
    updated one. *)
Theorem present_without_purge_deletes_to_update module (requested : list dict)
    (w : World) change rv before after :
  check_mode module = false ->
  result (native_python_main frv module false requested "present" w)
    = inr (change, rv, before, after) ->
  let c := calls (native_python_main frv module false requested "present" w) in
  rv_removed rv = []
  /\ count is_delete c = length (rv_updated rv)
  /\ count is_create c = length (rv_added rv) + 2 * length (rv_updated rv).
Proof.
  intros Hreal H. cbn zeta. rewrite native_eq in *.
  destruct (for_each normalize_item requested) as [e | req]; [discriminate |].
  cbn zeta in *. unfold state_block in *. rewrite decide_True in * by reflexivity.
  unfold present_block in *.
  destruct (apply_loop module (filter (fun x => x ∉ frv (remote_variables w)) req)
              (ReturnValue [] [] [] []) w) as [[e | rv1] w1 c1] eqn:E.
  - rewrite (bind_raise _ _ _ _ _ _ E) in H. discriminate.
  - destruct (apply_loop_run module Hreal _ _ _ _ _ _ E) as (a & u & Hrun & ->).
    rewrite (bind_ok _ _ _ _ _ _ E) in *. cbn [result final calls ret] in *.
    rewrite finish_real in H by assumption. injection H as _ <- _ _.
    cbn [rv_added rv_updated rv_removed app].
    destruct (apply_run_counts _ _ _ _ _ _ Hrun) as [Hd Hc].
    rewrite !count_app, !count_list_calls by reflexivity.
    unfold count at 2 4. cbn. split; [reflexivity |]. split; lia.
Qed.

(** X9. In a real run the untouched list of the result of [main] holds,
    for every variable of the first listing that is also in the last one,
    what its attributes have under ['name']: [None] for every one of them
    when the remote variables have no such attribute. *)
Theorem real_run_untouched_names module (w : World) changed gv :
  check_mode module = false ->
  result (main frv module w) = inr (changed, gv) ->
  gv_untouched gv
  = map (fun x : dict => dict_get x "name")
        (filter (fun x => x ∈ remote_variables (final (main frv module w)))
                (remote_variables w))
  /\ (Forall (fun e : dict => e !! "name" = None) (remote_variables w) ->
      Forall (fun v => v = PNone) (gv_untouched gv)).
Proof.
  intros Hreal H.
  assert (Hgv : gv_untouched gv
    = map (fun x : dict => dict_get x "name")
          (filter (fun x => x ∈ remote_variables (final (main frv module w)))
                  (remote_variables w))).
  { rewrite main_eq in *.
    destruct (decide (params_vars module = ∅)) as [_ | _]; [| discriminate].
    destruct (validation _ _) as [e | [|]]; try discriminate.
    cbn zeta in *. rewrite native_eq in *.
    destruct (for_each normalize_item (params_variables module)) as [e | req];
      [discriminate |].
    cbn zeta in *.
    destruct (state_block frv module _ _ _ _ _ w) as [[e | rv0] w1 c1];
      cbn [result final calls] in *; [discriminate |].
    destruct (finish module _ _ _ rv0) as [change raw]. cbn [result final] in *.
    injection H as _ <-. unfold payload. rewrite Hreal. reflexivity. }
  split; [exact Hgv |].
  intros Hnone. rewrite Hgv. apply Forall_fmap, Forall_forall. intros x Hx.
  apply list_elem_of_filter in Hx as [_ Hx]. rewrite Forall_forall in Hnone.
  cbn. unfold dict_get. rewrite (Hnone x Hx). reflexivity.
Qed.

Lemma apply_loop_app module pre : forall rest rv (w : World) t a u w0,
  check_mode module = false ->
  apply_run pre w t a u w0 ->
  apply_loop module (pre ++ rest) rv w
  = let o := apply_loop module rest
               (ReturnValue (rv_added rv ++ a) (rv_updated rv ++ u)
                            (rv_removed rv) (rv_untouched rv)) w0 in
    Out (result o) (final o) (t ++ calls o).
Proof.
  intros rest rv w t a u w0 Hreal Hrun. revert rv.
  induction Hrun as [w | x xs w w1 w2 t a u Hc _ IH
                     | x xs w w1 w2 w3 t a u Hc Hd Hc2 _ IH]; intros rv.
  - cbn zeta. rewrite !app_nil_r. cbn [app]. destruct rv. cbn. apply outcome_eta.
  - cbn [app]. rewrite apply_loop_cons by assumption. cbn zeta. rewrite Hc, IH. cbn zeta.
    cbn [result final calls append_added rv_added rv_updated rv_removed rv_untouched app].
    rewrite <- !app_assoc. reflexivity.
  - cbn [app]. rewrite apply_loop_cons by assumption. cbn zeta.
    rewrite Hc, Hd, Hc2, IH. cbn zeta.
    cbn [result final calls append_updated rv_added rv_updated rv_removed rv_untouched app].
    rewrite <- !app_assoc. reflexivity.
Qed.

(** X10. The update is not undone when it fails: in a real run with the
    state present, once the candidates before [x] have been applied, a
    create of [x] that fails, a delete that succeeds and a second create
    that fails end [native_python_main] on the error of the service, with
    the remote state that the delete has left; the candidates after [x] are
    not applied. *)
Theorem failed_update_leaves_variable_deleted module purge (requested req : list dict)
    (w : World) pre x rest t a u w0 w1 :
  check_mode module = false ->
  for_each normalize_item requested = inr req ->
  filter (fun v => v ∉ frv (remote_variables w)) req = pre ++ x :: rest ->
  apply_run pre w t a u w0 ->
  variables_create (create_body x) w0 = None ->
  variables_delete (dict_get x "key") (dict_get x "environment_scope") w0 = Some w1 ->
  variables_create (create_body x) w1 = None ->
  native_python_main frv module purge requested "present" w
  = Out (inl GitlabError) w1
        (list_calls w ++ list_calls w ++ t
           ++ [EvCreate (create_body x);
               EvDelete (dict_get x "key") (dict_get x "environment_scope");
               EvCreate (create_body x)]).
Proof.
  intros Hreal Hreq Hcands Hrun Hc Hd Hc2.
  rewrite native_eq, Hreq. cbn zeta. unfold state_block.
  rewrite decide_True by reflexivity. unfold present_block. rewrite Hcands.
  assert (E : apply_loop module (pre ++ x :: rest) (ReturnValue [] [] [] []) w
              = Out (inl GitlabError) w1
                  (t ++ [EvCreate (create_body x);
                         EvDelete (dict_get x "key") (dict_get x "environment_scope");
                         EvCreate (create_body x)])).
  { rewrite (apply_loop_app module pre _ _ w t a u w0 Hreal Hrun). cbn zeta.
    rewrite apply_loop_cons by assumption. cbn zeta. rewrite Hc, Hd, Hc2. reflexivity. }
  rewrite (bind_raise _ _ _ _ _ _ E). reflexivity.
Qed.

End MoreProperties.

(** ** Further properties on the reference service *)

Module RefProperties.
Import RefStore RefStoreFacts.

Lemma chunks_sizes n fuel : forall l : list dict,
  0 < n -> Forall (fun p => 0 < length p <= n) (chunks fuel n l).
Proof.
  induction fuel as [| fuel IH]; intros l Hn; [constructor |].
  destruct l as [| x l]; [constructor |]. cbn [chunks]. constructor; [| apply IH, Hn].
  rewrite length_take. cbn [length]. lia.
Qed.

(** X11. On the reference service the listing loses nothing: the pages
    have between 1 and [per_page] variables, and
    [list_all_instance_variables] returns every variable that the service
    holds, in order, with one call more than there are pages. *)
Theorem listing_returns_every_variable (w : store) :
  Forall (fun p => 0 < length p <= per_page) (pages w)
  /\ list_all_instance_variables w
     = Out (inr w) w (map EvList (seq 1 (S (length (pages w))))).
Proof.
  split; [apply chunks_sizes; unfold per_page; lia |].
  rewrite list_all_spec, remote_variables_ref. unfold list_calls.
  cbn [variables_pages gitlab]. unfold pages at 1.
  destruct (chunks_spec per_page (length w) w) as [_ ->];
    [unfold per_page; lia | lia |]. reflexivity.
Qed.

(** X12. A requested variable as the argument spec hands it over is sent
    to the service as it is compared: after the first loop of
    [native_python_main] the body that [create_variable] builds is the
    variable itself, and [filter_returned_variables] leaves it as it is. *)
Theorem created_variable_is_compared_variable (item : dict) :
  wf_requested item ->
  exists d,
    normalize_item item = inr d
    /\ create_body d = d
    /\ filter_returned_variables [d] = [d].
Proof.
  intros Hwf. destruct (normalize_normal item Hwf) as (d & Hd & Hn).
  exists d. split; [exact Hd |]. split; [apply body_normal, Hn |].
  cbn. rewrite (known_normal d Hn). reflexivity.
Qed.

(** X13. With one requested variable per (key, scope) pair, a real run of
    the state present on the reference service succeeds and leaves a
    service that holds every requested variable with the requested
    attributes, and only variables that were requested or already held;
    without purge, the variables whose pair is not requested stay. *)
Theorem present_leaves_requested_variables module (purge : bool)
    (requested req : list dict) (w : store) :
  check_mode module = false ->
  Forall wf_requested requested ->
  for_each normalize_item requested = inr req ->
  NoDup (map pair_of req) ->
  store_ok w ->
  let o := native_python_main filter_returned_variables module purge requested
             "present" w in
  (exists r, result o = inr r)
  /\ store_ok (final o)
  /\ (forall d, d ∈ req -> d ∈ filter_returned_variables (final o))
  /\ (forall e, e ∈ final o -> e ∈ req \/ e ∈ w)
  /\ (purge = false ->
      forall e, e ∈ w -> pair_of e ∉ map pair_of req -> e ∈ final o).
Proof.
  intros Hreal Hwf Hreq Hnd Hok. cbn zeta.
  destruct (for_each_normal requested Hwf) as (req' & Hreq' & Hn).
  rewrite Hreq in Hreq'. injection Hreq' as <-.
  destruct (ref_native_present module purge requested req w Hreal Hreq Hn Hok)
    as (t & a & u & _ & Hnat).
  cbn zeta in Hnat. rewrite Hnat. cbn [result final].
  set (cands := filter (fun x => x ∉ filter_returned_variables w) req) in *.
  set (w1 := puts cands w) in *.
  assert (Hok1 : store_ok w1) by (apply store_ok_puts, Hok).
  pose proof (applied_holds req w Hn) as Hheld1. fold cands w1 in Hheld1.
  assert (Hfrom : forall e, e ∈ w1 -> e ∈ req \/ e ∈ w).
  { intros e He. apply elem_of_puts in He as [He | [He _]]; [| auto].
    left. apply list_elem_of_filter in He as [_ He]. exact He. }
  split; [eauto |]. destruct purge.
  - split; [apply (store_ok_filter _ w1 Hok1) |]. split; [| split; [| discriminate]].
    + intros d Hd. pose proof (Hheld1 d Hnd Hd) as Hd1.
      apply filter_returned_variables_elem in Hd1 as (e & He & ->).
      apply filter_returned_variables_elem. exists e. split; [| reflexivity].
      apply list_elem_of_filter. split; [| assumption].
      rewrite <- pair_of_known. apply list_elem_of_fmap. eauto.
    + intros e He. apply list_elem_of_filter in He as [_ He]. auto.
  - split; [exact Hok1 |]. split; [intros d Hd; apply Hheld1; assumption |].
    split; [exact Hfrom |]. intros _ e He Hp. apply puts_keeps; [assumption |].
    intros Hin. apply Hp. apply list_elem_of_fmap in Hin as (c & -> & Hc).
    apply list_elem_of_filter in Hc as [_ Hc]. apply list_elem_of_fmap. eauto.
Qed.

(** X14. With the state present, purge and no requested variable, a real
    run on the reference service deletes every variable of the service and
    reports them all as removed. *)
Theorem present_purge_without_variables_empties module (w : store) :
  check_mode module = false ->
  store_ok w ->
  exists c,
    native_python_main filter_returned_variables module true [] "present" w
    = Out (inr ((0 <? length w)%nat,
                ReturnValue [] [] (filter_returned_variables w) [], w, [])) [] c.
Proof.
  intros Hreal Hok.
  destruct (ref_native_present module true [] [] w Hreal eq_refl (Forall_nil_2 _) Hok)
    as (t & a & u & Hrun & Hnat).
  cbn zeta in Hnat. cbn [filter puts fold_left map] in Hrun, Hnat.
  rewrite filter_nil in Hrun, Hnat. cbn [puts fold_left] in Hrun, Hnat.
  inversion Hrun; subst.
  rewrite (filter_all _ (filter_returned_variables w)) in Hnat
    by (intros x _; apply not_elem_of_nil).
  rewrite (filter_none _ w) in Hnat by (intros e _ Hin; inversion Hin).
  cbn [app] in Hnat. rewrite app_nil_r in Hnat.
  assert (Hlen : length (filter_returned_variables w) = length w)
    by apply length_map.
  rewrite Hlen in Hnat. eexists. exact Hnat.
Qed.

(** X15. With the state absent and no purge, and one requested variable
    per (key, scope) pair, a real run on the reference service removes the
    requested variables that, once value and type are stripped, are equal
    to a stripped remote variable: a remote variable is deleted if and only
    if a requested variable has its key, scope, masked and protected; the
    added and updated lists are empty. *)
Theorem absent_removes_stripped_matches module (requested req : list dict) (w : store) :
  check_mode module = false ->
  Forall wf_requested requested ->
  for_each normalize_item requested = inr req ->
  NoDup (map pair_of req) ->
  store_ok w ->
  Forall (fun e : dict => is_Some (e !! "value") /\ is_Some (e !! "variable_type")) w ->
  let strip := fun d : dict => delete "variable_type" (delete "value" d) in
  let removed :=
    filter (fun x => x ∈ map strip (filter_returned_variables w)) (map strip req) in
  let w2 := filter (fun e => pair_of e ∉ map pair_of removed) w in
  (exists change c,
     native_python_main filter_returned_variables module false requested "absent" w
     = Out (inr (change, ReturnValue [] [] removed [], w, w2)) w2 c)
  /\ (forall e, e ∈ w ->
        (e ∉ w2 <->
         exists d, d ∈ req
           /\ strip d = strip (filter (fun kv : string * pyval => kv.1 ∈ known) e))).
Proof.
  intros Hreal Hwf Hreq Hnd Hok Hattr strip removed w2.
  destruct (for_each_normal requested Hwf) as (req' & Hreq' & Hn).
  rewrite Hreq in Hreq'. injection Hreq' as <-.
  assert (Hstrip_pair : forall d, pair_of (strip d) = pair_of d)
    by (intros d; apply pair_of_strip).
  split.
  - rewrite native_eq, Hreq. cbn zeta. rewrite remote_variables_ref.
    unfold state_block. rewrite decide_False by discriminate.
    rewrite decide_True by reflexivity. unfold absent_block.
    rewrite for_each_strip.
    2:{ apply Forall_forall. intros d Hd.
        apply filter_returned_variables_elem in Hd as (e & He & ->).
        rewrite Forall_forall in Hattr. destruct (Hattr e He) as [Hv Ht].
        rewrite !known_lookup; [auto | |]; unfold known; rewrite !elem_of_cons; auto 10. }
    rewrite for_each_strip.
    2:{ apply Forall_forall. intros d Hd. rewrite Forall_forall in Hn.
        split; apply normal_has; auto; unfold known; rewrite !elem_of_cons; auto 10. }
    cbn [lift]. rewrite !bind_ret_l. cbn [negb]. fold strip. fold removed.
    rewrite ref_delete_loop; [| assumption | |].
    + cbn [result final calls rv_added rv_updated rv_removed rv_untouched app].
      fold w2. rewrite finish_real by assumption. rewrite remote_variables_ref.
      do 2 eexists. reflexivity.
    + apply (store_ok_filter _ (map strip req)). unfold store_ok.
      rewrite map_map. erewrite map_ext; [exact Hnd |]. intros d. apply Hstrip_pair.
    + intros x Hx. apply list_elem_of_filter in Hx as [Hx _].
      apply list_elem_of_fmap in Hx as (y & -> & Hy).
      rewrite Hstrip_pair, <- filter_returned_variables_pairs.
      apply list_elem_of_fmap. eauto.
  - intros e He. subst w2. rewrite list_elem_of_filter. split.
    + intros Hnot.
      destruct (decide (pair_of e ∈ map pair_of removed)) as [Hin | Hin]; [| tauto].
      apply list_elem_of_fmap in Hin as (x & Hpx & Hx). subst removed.
      apply list_elem_of_filter in Hx as [Hx1 Hx2].
      apply list_elem_of_fmap in Hx2 as (d & -> & Hd).
      apply list_elem_of_fmap in Hx1 as (y & Hy1 & Hy2).
      apply filter_returned_variables_elem in Hy2 as (e' & He' & ->).
      exists d. split; [assumption |]. rewrite Hy1.
      rewrite Hstrip_pair in Hpx.
      assert (Hpe : pair_of e = pair_of e').
      { rewrite Hpx. rewrite <- (Hstrip_pair d), Hy1, Hstrip_pair. apply pair_of_known. }
      rewrite (store_ok_inj w e e' Hok He He' Hpe). reflexivity.
    + intros (d & Hd & Heq) [Hnot _]. apply Hnot.
      apply list_elem_of_fmap. exists (strip d). split.
      * rewrite Heq, Hstrip_pair, pair_of_known. reflexivity.
      * subst removed. apply list_elem_of_filter. split.
        -- rewrite Heq. apply list_elem_of_fmap. eexists. split; [reflexivity |].
           apply filter_returned_variables_elem. eauto.
        -- apply list_elem_of_fmap. eauto.
Qed.

End RefProperties.

(** ** The further properties at concrete runs *)

Module MoreRuns.
Import RefStore.

Ltac decide_by_eval := apply (bool_decide_unpack _); vm_compute; exact I.

(** The first loop on a variable that has a name and nothing else. *)
Lemma normalize_item_defaults_run :
  let item : dict := <["name" := PStr "BAR"]> ∅ in
  item !! "name" = Some (PStr "BAR")
  /\ exists d,
    normalize_item item = inr d
    /\ d !! "name" = None
    /\ d !! "key" = Some (PStr "BAR")
    /\ d !! "value" = Some (PStr (py_str (dict_get item "value")))
    /\ (forall k v,
          (k, v) ∈ [("protected", PBool false); ("masked", PBool false);
                    ("environment_scope", PStr "*"); ("variable_type", PStr "env_var")] ->
          d !! k = Some (if decide (dict_get item k = PNone) then v else dict_get item k))
    /\ (forall k,
          k ∉ ["name"; "key"; "value"; "protected"; "masked";
               "environment_scope"; "variable_type"] ->
          d !! k = item !! k).
Proof.
  cbn zeta. split; [decide_by_eval |].
  apply (normalize_item_defaults (<["name" := PStr "BAR"]> ∅) (PStr "BAR")).
  decide_by_eval.
Defined.

(** A variable without a name, after one that has one. *)
Lemma missing_name_raises_KeyError_run :
  let requested := [requested_variable "FOO" "1"; <["value" := PStr "1"]> ∅] in
  let module := module_of false true requested "present" in
  let w := [remote_variable "BAR" "1" false] in
  Exists (fun item : dict => item !! "name" = None) requested
  /\ native_python_main filter_returned_variables module true requested "present" w
     = Out (inl (KeyError "name")) w (list_calls w ++ list_calls w).
Proof.
  cbn zeta. split; [decide_by_eval |].
  apply (missing_name_raises_KeyError filter_returned_variables
           (module_of false true
              [requested_variable "FOO" "1"; <["value" := PStr "1"]> ∅] "present")
           true [requested_variable "FOO" "1"; <["value" := PStr "1"]> ∅] "present"
           [remote_variable "BAR" "1" false]).
  decide_by_eval.
Defined.

(** Check mode, state present with purge, on a changed FOO and a BAR that
    is not requested. *)
Lemma check_mode_report_run :
  let requested := [requested_variable "FOO" "2"] in
  let module := module_of true true requested "present" in
  let w := [remote_variable "FOO" "1" false; remote_variable "BAR" "1" false] in
  let rv := ReturnValue [remote_variable "FOO" "2" false] [] w [] in
  check_mode module = true
  /\ result (native_python_main filter_returned_variables module true requested
               "present" w) = inr (true, rv, w, w)
  /\ exists req,
    for_each normalize_item requested = inr req
    /\ (rv_untouched rv, rv_updated rv, rv_added rv)
       = compare req (filter_returned_variables (remote_variables w)) "present"
    /\ w = remote_variables w
    /\ w = remote_variables w
    /\ ("present" = "present" ->
        rv_removed rv
        = if true then filter (fun x => x ∉ req)
                         (filter_returned_variables (remote_variables w)) else [])
    /\ ("present" = "absent" ->
        exists existing' req',
          for_each strip_item (filter_returned_variables (remote_variables w))
            = inr existing'
          /\ for_each strip_item req = inr req'
          /\ rv_removed rv
             = if true then existing' else filter (fun x => x ∈ existing') req').
Proof.
  cbn zeta. split; [reflexivity |]. split; [decide_by_eval |].
  apply (check_mode_report filter_returned_variables
           (module_of true true [requested_variable "FOO" "2"] "present")
           true [requested_variable "FOO" "2"] "present"
           [remote_variable "FOO" "1" false; remote_variable "BAR" "1" false]
           true
           (ReturnValue [remote_variable "FOO" "2" false] []
              [remote_variable "FOO" "1" false; remote_variable "BAR" "1" false] []));
    [reflexivity | decide_by_eval].
Defined.

(** Check mode on a changed FOO. *)
Lemma check_mode_never_updated_run :
  let module := module_of true false [requested_variable "FOO" "2"] "present" in
  let w := [remote_variable "FOO" "1" false] in
  let gv := GroupVariable [PStr "FOO"] [] [] [] in
  check_mode module = true
  /\ Forall (fun e : dict => dict_get e "key" <> PNone)
            (filter_returned_variables (remote_variables w))
  /\ result (main filter_returned_variables module w) = inr (true, gv)
  /\ gv_updated gv = [].
Proof.
  cbn zeta. split; [reflexivity |]. split; [decide_by_eval |]. split; [decide_by_eval |].
  apply (check_mode_never_updated filter_returned_variables
           (module_of true false [requested_variable "FOO" "2"] "present")
           [remote_variable "FOO" "1" false] true (GroupVariable [PStr "FOO"] [] [] []));
    [reflexivity | decide_by_eval | decide_by_eval].
Defined.

(** Check mode, state present with purge. *)
Lemma check_mode_no_mutating_call_run :
  let module := module_of true true [requested_variable "FOO" "2"] "present" in
  let w := [remote_variable "FOO" "1" false; remote_variable "BAR" "1" false] in
  check_mode module = true
  /\ final (main filter_returned_variables module w) = w
  /\ quiet (calls (main filter_returned_variables module w)).
Proof.
  cbn zeta. split; [reflexivity |].
  apply (check_mode_no_mutating_call filter_returned_variables
           (module_of true true [requested_variable "FOO" "2"] "present")).
  reflexivity.
Defined.

(** A run that updates FOO and adds BAR. *)
Lemma present_without_purge_deletes_to_update_run :
  let requested := [requested_variable "FOO" "2"; requested_variable "BAR" "x"] in
  let module := module_of false false requested "present" in
  let w := [remote_variable "FOO" "1" false] in
  let rv := ReturnValue [remote_variable "BAR" "x" false]
                        [remote_variable "FOO" "2" false] [] [] in
  check_mode module = false
  /\ result (native_python_main filter_returned_variables module false requested
               "present" w)
     = inr (true, rv, w,
            [remote_variable "FOO" "2" false; remote_variable "BAR" "x" false])
  /\ (let c := calls (native_python_main filter_returned_variables module false
                        requested "present" w) in
      rv_removed rv = []
      /\ count is_delete c = length (rv_updated rv)
      /\ count is_create c = length (rv_added rv) + 2 * length (rv_updated rv)).
Proof.
  cbn zeta. split; [reflexivity |]. split; [decide_by_eval |].
  apply (present_without_purge_deletes_to_update filter_returned_variables
           (module_of false false
              [requested_variable "FOO" "2"; requested_variable "BAR" "x"] "present")
           [requested_variable "FOO" "2"; requested_variable "BAR" "x"]
           [remote_variable "FOO" "1" false] true
           (ReturnValue [remote_variable "BAR" "x" false]
                        [remote_variable "FOO" "2" false] [] [])
           [remote_variable "FOO" "1" false]
           [remote_variable "FOO" "2" false; remote_variable "BAR" "x" false]);
    [reflexivity | decide_by_eval].
Defined.

(** A run that changes nothing. *)
Lemma real_run_untouched_names_run :
  let module := module_of false false [requested_variable "FOO" "1"] "present" in
  let w := [remote_variable "FOO" "1" false] in
  let gv := GroupVariable [] [] [] [PNone] in
  check_mode module = false
  /\ result (main filter_returned_variables module w) = inr (false, gv)
  /\ gv_untouched gv
     = map (fun x : dict => dict_get x "name")
           (filter (fun x => x ∈ remote_variables
                               (final (main filter_returned_variables module w)))
                   (remote_variables w))
  /\ (Forall (fun e : dict => e !! "name" = None) (remote_variables w) ->
      Forall (fun v => v = PNone) (gv_untouched gv)).
Proof.
  cbn zeta. split; [reflexivity |]. split; [decide_by_eval |].
  apply (real_run_untouched_names filter_returned_variables
           (module_of false false [requested_variable "FOO" "1"] "present")
           [remote_variable "FOO" "1" false] false (GroupVariable [] [] [] [PNone]));
    [reflexivity | decide_by_eval].
Defined.

(** On the service that checks masked values: FOO is held, masked, and
    requested masked with a value of five characters. *)
Lemma failed_update_leaves_variable_deleted_run :
  let requested := [<["masked" := PBool true]> (requested_variable "FOO" "short")] in
  let x := remote_variable "FOO" "short" true in
  let module := module_of false false requested "present" in
  let w := [remote_variable "FOO" "12345678" true] in
  check_mode module = false
  /\ for_each normalize_item requested = inr [x]
  /\ filter (fun v => v ∉ filter_returned_variables
                          (remote_variables (gl := StrictStore.gitlab) w)) [x]
     = [] ++ x :: []
  /\ apply_run (gl := StrictStore.gitlab) [] w [] [] [] w
  /\ variables_create (GitlabInstance := StrictStore.gitlab) (create_body x) w = None
  /\ variables_delete (GitlabInstance := StrictStore.gitlab)
       (dict_get x "key") (dict_get x "environment_scope") w = Some []
  /\ variables_create (GitlabInstance := StrictStore.gitlab) (create_body x) [] = None
  /\ native_python_main (gl := StrictStore.gitlab) filter_returned_variables module
       false requested "present" w
     = Out (inl GitlabError) []
           (list_calls (gl := StrictStore.gitlab) w
              ++ list_calls (gl := StrictStore.gitlab) w ++ []
              ++ [EvCreate (create_body x);
                  EvDelete (dict_get x "key") (dict_get x "environment_scope");
                  EvCreate (create_body x)]).
Proof.
  cbn zeta. split; [reflexivity |]. split; [decide_by_eval |]. split; [decide_by_eval |].
  split; [constructor |]. split; [decide_by_eval |]. split; [decide_by_eval |].
  split; [decide_by_eval |].
  apply (failed_update_leaves_variable_deleted (gl := StrictStore.gitlab)
           filter_returned_variables
           (module_of false false
              [<["masked" := PBool true]> (requested_variable "FOO" "short")] "present")
           false
           [<["masked" := PBool true]> (requested_variable "FOO" "short")]
           [remote_variable "FOO" "short" true]
           [remote_variable "FOO" "12345678" true]
           [] (remote_variable "FOO" "short" true) [] [] [] []
           [remote_variable "FOO" "12345678" true] []);
    [reflexivity | decide_by_eval | decide_by_eval | constructor
     | decide_by_eval | decide_by_eval | decide_by_eval].
Defined.

(** The listing of sample variables is sent and compared as it is. *)
Lemma created_variable_is_compared_variable_run :
  let item := requested_variable "FOO" "1" in
  wf_requested item
  /\ exists d,
    normalize_item item = inr d
    /\ create_body d = d
    /\ filter_returned_variables [d] = [d].
Proof.
  cbn zeta. split; [decide_by_eval |].
  apply (RefProperties.created_variable_is_compared_variable
           (requested_variable "FOO" "1")).
  decide_by_eval.
Defined.

(** A run that updates FOO, adds BAR and keeps BAZ. *)
Lemma present_leaves_requested_variables_run :
  let requested := [requested_variable "FOO" "2"; requested_variable "BAR" "x"] in
  let req := [remote_variable "FOO" "2" false; remote_variable "BAR" "x" false] in
  let module := module_of false false requested "present" in
  let w := [remote_variable "FOO" "1" false; remote_variable "BAZ" "1" true] in
  check_mode module = false
  /\ Forall wf_requested requested
  /\ for_each normalize_item requested = inr req
  /\ NoDup (map pair_of req)
  /\ store_ok w
  /\ (let o := native_python_main filter_returned_variables module false requested
                 "present" w in
      (exists r, result o = inr r)
      /\ store_ok (final o)
      /\ (forall d, d ∈ req -> d ∈ filter_returned_variables (final o))
      /\ (forall e, e ∈ final o -> e ∈ req \/ e ∈ w)
      /\ (false = false ->
          forall e, e ∈ w -> pair_of e ∉ map pair_of req -> e ∈ final o)).
Proof.
  cbn zeta. split; [reflexivity |]. split; [decide_by_eval |].
  split; [decide_by_eval |]. split; [decide_by_eval |]. split; [decide_by_eval |].
  apply (RefProperties.present_leaves_requested_variables
           (module_of false false
              [requested_variable "FOO" "2"; requested_variable "BAR" "x"] "present")
           false
           [requested_variable "FOO" "2"; requested_variable "BAR" "x"]
           [remote_variable "FOO" "2" false; remote_variable "BAR" "x" false]
           [remote_variable "FOO" "1" false; remote_variable "BAZ" "1" true]);
    [reflexivity | decide_by_eval | decide_by_eval | decide_by_eval | decide_by_eval].
Defined.

(** Purge with an empty list of variables. *)
Lemma present_purge_without_variables_empties_run :
  let module := module_of false true [] "present" in
  let w := [remote_variable "FOO" "1" false; remote_variable "BAZ" "1" true] in
  check_mode module = false
  /\ store_ok w
  /\ exists c,
    native_python_main filter_returned_variables module true [] "present" w
    = Out (inr ((0 <? length w)%nat,
                ReturnValue [] [] (filter_returned_variables w) [], w, [])) [] c.
Proof.
  cbn zeta. split; [reflexivity |]. split; [decide_by_eval |].
  apply (RefProperties.present_purge_without_variables_empties
           (module_of false true [] "present")
           [remote_variable "FOO" "1" false; remote_variable "BAZ" "1" true]);
    [reflexivity | decide_by_eval].
Defined.

(** The state absent on FOO, held with another value, on BAZ, held masked
    and requested unmasked, and on BAR, not held. *)
Lemma absent_removes_stripped_matches_run :
  let requested := [requested_variable "FOO" "2"; requested_variable "BAZ" "1";
                    requested_variable "BAR" "x"] in
  let req := [remote_variable "FOO" "2" false; remote_variable "BAZ" "1" false;
              remote_variable "BAR" "x" false] in
  let module := module_of false false requested "absent" in
  let w := [remote_variable "FOO" "1" false; remote_variable "BAZ" "1" true] in
  check_mode module = false
  /\ Forall wf_requested requested
  /\ for_each normalize_item requested = inr req
  /\ NoDup (map pair_of req)
  /\ store_ok w
  /\ Forall (fun e : dict => is_Some (e !! "value") /\ is_Some (e !! "variable_type")) w
  /\ (let strip := fun d : dict => delete "variable_type" (delete "value" d) in
      let removed :=
        filter (fun x => x ∈ map strip (filter_returned_variables w)) (map strip req) in
      let w2 := filter (fun e => pair_of e ∉ map pair_of removed) w in
      (exists change c,
         native_python_main filter_returned_variables module false requested "absent" w
         = Out (inr (change, ReturnValue [] [] removed [], w, w2)) w2 c)
      /\ (forall e, e ∈ w ->
            (e ∉ w2 <->
             exists d, d ∈ req
               /\ strip d
                  = strip (filter (fun kv : string * pyval => kv.1 ∈ known) e)))).
Proof.
  cbn zeta. split; [reflexivity |]. split; [decide_by_eval |].
  split; [decide_by_eval |]. split; [decide_by_eval |]. split; [decide_by_eval |].
  split; [decide_by_eval |].
  apply (RefProperties.absent_removes_stripped_matches
           (module_of false false
              [requested_variable "FOO" "2"; requested_variable "BAZ" "1";
               requested_variable "BAR" "x"] "absent")
           [requested_variable "FOO" "2"; requested_variable "BAZ" "1";
            requested_variable "BAR" "x"]
           [remote_variable "FOO" "2" false; remote_variable "BAZ" "1" false;
            remote_variable "BAR" "x" false]
           [remote_variable "FOO" "1" false; remote_variable "BAZ" "1" true]);
    [reflexivity | decide_by_eval | decide_by_eval | decide_by_eval
     | decide_by_eval | decide_by_eval].
Defined.

(** The state absent with purge, on a variable that is not held. *)
Lemma absent_purge_empties_run :
  let requested := [requested_variable "BAR" "x"] in
  let module := module_of false true requested "absent" in
  let w := [remote_variable "FOO" "1" false; remote_variable "BAZ" "1" true] in
  check_mode module = false
  /\ Forall wf_requested requested
  /\ store_ok w
  /\ Forall (fun e : dict => is_Some (e !! "value") /\ is_Some (e !! "variable_type")) w
  /\ exists change rv c,
    native_python_main filter_returned_variables module true requested "absent" w
    = Out (inr (change, rv, w, [])) [] c
    /\ rv_removed rv
       = map (fun d : dict => delete "variable_type" (delete "value" d))
             (filter_returned_variables w).
Proof.
  cbn zeta. split; [reflexivity |]. split; [decide_by_eval |]. split; [decide_by_eval |].
  split; [decide_by_eval |].
  apply (RefStoreFacts.absent_purge_empties
           (module_of false true [requested_variable "BAR" "x"] "absent")
           [requested_variable "BAR" "x"]
           [remote_variable "FOO" "1" false; remote_variable "BAZ" "1" true]);
    [reflexivity | decide_by_eval | decide_by_eval | decide_by_eval].
Defined.

End MoreRuns.
